(** * The self-signed certificate request issuer of cert-manager

    A shallow embedding of
    [pkg/controller/certificaterequests/selfsigned/selfsigned.go] and the
    properties of its [Sign] method.

    [Sign] is a straight-line function with early returns.  It talks to the
    collaborators held in the [SelfSigned] struct (the condition reporter,
    the event recorder, the secrets lister, the signing strategy) and to a
    logger.  The embedding keeps the control flow of the source and records
    every such interaction, in program order, in a trace of [Effect]s. *)

From Stdlib Require Import ZArith.
From stdpp Require Import base strings list gmap.

Local Open Scope string_scope.

(** ** Go values shared by the packages below *)

(** Go's [error] interface, with the three dynamic types that [Sign] tells
    apart: plain [errors.New] values, Kubernetes API status errors, and
    cert-manager's invalid-data errors.  A nil [error] is [None]. *)
Inductive error : Type :=
  | errorString (s : string)
  | StatusError (reason : string) (message : string)
  | invalidData (message : string).

#[global] Instance error_eq_dec : EqDecision error.
Proof. solve_decision. Defined.

(** The [Error() string] method. *)
Definition Error (e : error) : string :=
  match e with
  | errorString s => s
  | StatusError _ message => message
  | invalidData message => message
  end.

Module errors.
(** [errors.New(text)]. *)
Definition New (text : string) : error := errorString text.
End errors.

Module k8sErrors.
Definition StatusReasonUnknown : string := "".
Definition StatusReasonNotFound : string := "NotFound".

(** [ReasonForError]: the reason of an API status error, unknown for a
    nil error and for any error that carries no API status. *)
Definition ReasonForError (err : option error) : string :=
  match err with
  | Some (StatusError reason _) => reason
  | _ => StatusReasonUnknown
  end.

(** [k8sErrors.IsNotFound(err)]. *)
Definition IsNotFound (err : option error) : bool :=
  String.eqb (ReasonForError err) StatusReasonNotFound.
End k8sErrors.

Module cmerrors.
(** Modelled from the spec: [pkg/util/errors] is not among the sources.
    The key resolver's errors are classified as not-found, malformed-data
    or other; [IsInvalidData] recognises the malformed-data class, which
    is a dynamic type of its own and is false of a nil error. *)
Definition IsInvalidData (err : option error) : bool :=
  match err with
  | Some (invalidData _) => true
  | _ => false
  end.
End cmerrors.

Module corev1.
Definition EventTypeNormal : string := "Normal".
Definition EventTypeWarning : string := "Warning".
End corev1.

(** [err != nil]. *)
Definition not_nil {A : Type} (p : option A) : bool :=
  match p with Some _ => true | None => false end.

(** The comma-ok form [v, ok := m[k]] on a [map[string]string]: the zero
    value and [false] when the key is absent (also on a nil map). *)
Definition index_ok (m : gmap string string) (k : string) : string * bool :=
  match m !! k with
  | Some v => (v, true)
  | None => ("", false)
  end.

(** ** Constants of the package (lines 43-46) *)

Definition CRControllerName : string :=
  "certificaterequests-issuer-selfsigned".

Definition emptyDNMessage : string :=
  "Certificate will be issued with an empty Issuer DN, which contravenes RFC 5280 and could break some strict clients".

(** ** API objects *)

Record ObjectMeta : Type := {
  Name : string;
  Namespace : string;
  Annotations : gmap string string
}.

Record CertificateRequestSpec : Type := {
  Request : list Byte.byte;
  IsCA : bool;
  Usages : list string
}.

(** [cmapi.CertificateRequest]; [cr.Namespace] is the promoted field
    [cr.ObjectMeta.Namespace]. *)
Record CertificateRequest : Type := {
  cr_ObjectMeta : ObjectMeta;
  cr_Spec : CertificateRequestSpec
}.

Record SelfSignedIssuer : Type := {
  ss_CRLDistributionPoints : list string
}.

(** [cmapi.IssuerSpec]: [SelfSigned] is a pointer, nil for an issuer of
    another kind. *)
Record IssuerSpec : Type := {
  SelfSigned_cfg : option SelfSignedIssuer
}.

(** [cmapi.GenericIssuer], through its accessors. *)
Record GenericIssuer : Type := {
  GetObjectMeta : ObjectMeta;
  GetSpec : IssuerSpec
}.

(** [issuer.IssueResponse]. *)
Record IssueResponse : Type := {
  Certificate : list Byte.byte;
  CA : list Byte.byte
}.

(** ** Opaque types of the imported packages *)

Class GoTypes : Type := {
  (** [crypto.Signer], the resolved private key *)
  crypto_Signer : Type;
  (** [crypto.PublicKey] *)
  crypto_PublicKey : Type;
  (** [pkix.Name] and its [String()] method *)
  pkix_Name : Type;
  Name_String : pkix_Name -> string;
  (** the fields of [x509.Certificate] that [Sign] never touches *)
  x509_Fields : Type;
  (** [corelisters.SecretLister] *)
  SecretLister : Type;
  (** [controllerpkg.IssuerOptions] *)
  IssuerOptions : Type;
  (** what an invocation draws from outside its arguments: the random
      numbers and the clock readings of the template builder and of the
      signing strategy *)
  Entropy : Type
}.

Section Model.
Context {types : GoTypes}.

(** [x509.Certificate], used as the template. *)
Record x509_Certificate : Type := {
  Subject : pkix_Name;
  PublicKey : crypto_PublicKey;
  CRLDistributionPoints : list string;
  OtherFields : x509_Fields
}.

(** The assignment [template.CRLDistributionPoints = crl]. *)
Definition set_CRLDistributionPoints (template : x509_Certificate)
    (crl : list string) : x509_Certificate :=
  {| Subject := Subject template;
     PublicKey := PublicKey template;
     CRLDistributionPoints := crl;
     OtherFields := OtherFields template |}.

(** Line 48. *)
Definition signingFn : Type :=
  x509_Certificate -> x509_Certificate -> crypto_PublicKey -> crypto_Signer ->
  Entropy -> list Byte.byte * option x509_Certificate * option error.

(** Lines 50-59.  The reporter and the recorder are sinks: calls to them
    are recorded in the trace. *)
Record SelfSigned : Type := {
  issuerOptions : IssuerOptions;
  secretsLister : SecretLister;
  s_signingFn : signingFn
}.

(** ** Interactions of [Sign] with its collaborators *)
Inductive Effect : Type :=
  (** [s.reporter.Failed(cr, err, reason, message)] *)
  | reporter_Failed (cr : CertificateRequest) (err : option error)
      (reason message : string)
  (** [s.reporter.Pending(cr, err, reason, message)] *)
  | reporter_Pending (cr : CertificateRequest) (err : option error)
      (reason message : string)
  (** [reporter.Ready(cr)], the third method of the reporter *)
  | reporter_Ready (cr : CertificateRequest)
  (** [s.recorder.Event(cr, eventtype, reason, message)] *)
  | recorder_Event (cr : CertificateRequest) (eventtype reason message : string)
  (** [log.Error(err, message)] *)
  | log_Error (err : option error) (message : string)
  (** [log.V(level).Info(message)] *)
  | log_Info (level : Z) (message : string)
  (** [kube.SecretTLSKey(ctx, s.secretsLister, namespace, name)] *)
  | lister_SecretTLSKey (namespace name : string)
  (** [s.signingFn(issuer, subject, publickey, privatekey)] *)
  | call_signingFn (issuerCert subjectCert : x509_Certificate)
      (publickey : crypto_PublicKey) (privatekey : crypto_Signer).

(** How a Go call ends. *)
Inductive completion (A : Type) : Type :=
  | Returns (a : A)
  | Panics (reason : string).
#[global] Arguments Returns {A} a.
#[global] Arguments Panics {A} reason.

(** A run: the interactions in program order, and how the call ended. *)
Record Go (A : Type) : Type := MkGo {
  effects : list Effect;
  result : completion A
}.
#[global] Arguments MkGo {A} effects result.
#[global] Arguments effects {A} g.
#[global] Arguments result {A} g.

#[global] Instance Go_ret : MRet Go := fun A a => MkGo [] (Returns a).

#[global] Instance Go_bind : MBind Go := fun A B f m =>
  match result m with
  | Returns a => MkGo (effects m ++ effects (f a)) (result (f a))
  | Panics reason => MkGo (effects m) (Panics reason)
  end.

Definition tell (e : Effect) : Go unit := MkGo [e] (Returns tt).

Definition panic {A : Type} (reason : string) : Go A := MkGo [] (Panics reason).

Definition nil_dereference : string :=
  "runtime error: invalid memory address or nil pointer dereference".
End Model.

(** ** Functions and constants of the imported packages *)

Class Packages {types : GoTypes} : Type := {
  (** [cmapi.CertificateRequestPrivateKeyAnnotationKey] *)
  CertificateRequestPrivateKeyAnnotationKey : string;
  (** [logf.DebugLevel] *)
  DebugLevel : Z;
  (** the [%q] verb of [fmt.Sprintf] on a string *)
  strconv_Quote : string -> string;
  (** [IssuerOptions.ResourceNamespace(issuerObj)] *)
  ResourceNamespace : IssuerOptions -> GenericIssuer -> string;
  (** [kube.SecretTLSKey(ctx, lister, namespace, name)] *)
  kube_SecretTLSKey :
    SecretLister -> string -> string -> crypto_Signer * option error;
  (** [pki.GenerateTemplateFromCertificateRequest(cr)], which draws a
      serial number and reads the clock on every call *)
  pki_GenerateTemplateFromCertificateRequest :
    CertificateRequest -> Entropy -> option x509_Certificate * option error;
  (** [pki.PublicKeyForPrivateKey(privatekey)] *)
  pki_PublicKeyForPrivateKey : crypto_Signer -> crypto_PublicKey * option error;
  (** [pki.PublicKeysEqual(a, b)] *)
  pki_PublicKeysEqual : crypto_PublicKey -> crypto_PublicKey -> bool * option error
}.

Section Sign.
Context {types : GoTypes} {pkgs : Packages}.

(** Lines 80-183. *)
Definition Sign (s : SelfSigned) (cr : CertificateRequest)
    (issuerObj : GenericIssuer) (rnd : Entropy)
    : Go (option IssueResponse * option error) :=
  let resourceNamespace := ResourceNamespace (issuerOptions s) issuerObj in
  let '(secretName, ok) :=
    index_ok (Annotations (cr_ObjectMeta cr))
      CertificateRequestPrivateKeyAnnotationKey in
  if negb ok || String.eqb secretName "" then
    let message :=
      "Annotation " ++ strconv_Quote CertificateRequestPrivateKeyAnnotationKey
        ++ " missing or reference empty" in
    let err := errors.New "secret name missing" in
    tell (reporter_Failed cr (Some err) "MissingAnnotation" message) ;;
    tell (log_Error (Some err) message) ;;
    mret (None, None)
  else
  tell (lister_SecretTLSKey (Namespace (cr_ObjectMeta cr)) secretName) ;;
  let '(privatekey, err) :=
    kube_SecretTLSKey (secretsLister s) (Namespace (cr_ObjectMeta cr))
      secretName in
  if k8sErrors.IsNotFound err then
    let message :=
      "Referenced secret " ++ Namespace (cr_ObjectMeta cr) ++ "/"
        ++ secretName ++ " not found" in
    tell (reporter_Pending cr err "MissingSecret" message) ;;
    tell (log_Error err message) ;;
    mret (None, None)
  else
  if cmerrors.IsInvalidData err then
    let message :=
      "Failed to get key " ++ strconv_Quote secretName
        ++ " referenced in annotation "
        ++ strconv_Quote CertificateRequestPrivateKeyAnnotationKey in
    tell (reporter_Pending cr err "ErrorParsingKey" message) ;;
    tell (log_Error err message) ;;
    mret (None, None)
  else
  if not_nil err then
    let message :=
      "Failed to get certificate key pair from secret " ++ resourceNamespace
        ++ "/" ++ secretName in
    tell (reporter_Pending cr err "ErrorGettingSecret" message) ;;
    tell (log_Error err message) ;;
    mret (None, err)
  else
  let '(template, err) := pki_GenerateTemplateFromCertificateRequest cr rnd in
  if not_nil err then
    let message := "Error generating certificate template" in
    tell (reporter_Failed cr err "ErrorGenerating" message) ;;
    tell (log_Error err message) ;;
    mret (None, None)
  else
  template ←
    match template, SelfSigned_cfg (GetSpec issuerObj) with
    | Some template, Some selfSigned =>
        mret (set_CRLDistributionPoints template
                (ss_CRLDistributionPoints selfSigned))
    | _, _ => panic nil_dereference
    end ;
  (if String.eqb (Name_String (Subject template)) "" then
     tell (log_Info DebugLevel
       "issued cert will have an empty issuer DN, which contravenes RFC 5280. emitting warning event") ;;
     tell (recorder_Event cr corev1.EventTypeWarning "BadConfig" emptyDNMessage)
   else mret tt) ;;
  let '(publickey, err) := pki_PublicKeyForPrivateKey privatekey in
  if not_nil err then
    let message := "Failed to get public key from private key" in
    tell (reporter_Failed cr err "ErrorPublicKey" message) ;;
    tell (log_Error err message) ;;
    mret (None, None)
  else
  let '(ok, err) := pki_PublicKeysEqual publickey (PublicKey template) in
  if not_nil err || negb ok then
    let err :=
      if negb (not_nil err)
      then Some (errors.New "CSR not signed by referenced private key")
      else err in
    let message := "Error generating certificate template" in
    tell (reporter_Failed cr err "ErrorKeyMatch" message) ;;
    tell (log_Error err message) ;;
    mret (None, None)
  else
  tell (call_signingFn template template publickey privatekey) ;;
  let '(certPem, _, err) :=
    s_signingFn s template template publickey privatekey rnd in
  if not_nil err then
    let message := "Error signing certificate" in
    tell (reporter_Failed cr err "ErrorSigning" message) ;;
    tell (log_Error err message) ;;
    mret (None, None)
  else
  tell (log_Info DebugLevel "self signed certificate issued") ;;
  mret (Some {| Certificate := certPem; CA := certPem |}, None).
End Sign.


(** ** Observations on a run *)

(** The outcome vocabulary of the condition sink: what one call to the
    reporter records on the request. *)
Inductive Outcome : Type :=
  | Ready
  | PendingRetryable (reason message : string) (err : option error)
  | FailedTerminal (reason message : string) (err : option error).

Definition outcome_reason (o : Outcome) : option string :=
  match o with
  | Ready => None
  | PendingRetryable reason _ _ => Some reason
  | FailedTerminal reason _ _ => Some reason
  end.

Section Observations.
Context {types : GoTypes}.

Definition reported (e : Effect) : option Outcome :=
  match e with
  | reporter_Failed _ err reason message => Some (FailedTerminal reason message err)
  | reporter_Pending _ err reason message => Some (PendingRetryable reason message err)
  | reporter_Ready _ => Some Ready
  | _ => None
  end.

(** The outcomes reported to the condition sink during a run, in order. *)
Definition outcomes (es : list Effect) : list Outcome := omap reported es.

Definition is_warning_event (e : Effect) : bool :=
  match e with
  | recorder_Event _ eventtype _ _ => String.eqb eventtype corev1.EventTypeWarning
  | _ => false
  end.

(** The warning-severity events that [Sign] itself sends to the recorder
    during a run. *)
Definition warning_events (es : list Effect) : list Effect :=
  List.filter is_warning_event es.

(** The warning for an empty issuer DN: an event of type [Warning] with
    reason [BadConfig]. *)
Definition is_emptyDN_event (e : Effect) : bool :=
  match e with
  | recorder_Event _ eventtype reason _ =>
      String.eqb eventtype corev1.EventTypeWarning && String.eqb reason "BadConfig"
  | _ => false
  end.

Definition emptyDN_events (es : list Effect) : list Effect :=
  List.filter is_emptyDN_event es.

(** Modelled from the spec: the reporter of section 4.5
    ([pkg/controller/certificaterequests/util]) is not among the sources.
    It is built on the recorder that [Sign] also writes to (lines 74-75),
    and besides updating the condition it records each report there as an
    event under the reason of the report: of type [Warning] for a failure,
    of type [Normal] for a pending or ready request.  [records_warning]
    tells the interactions that leave a warning-severity event on the
    recorder. *)
Definition records_warning (e : Effect) : bool :=
  match e with
  | recorder_Event _ eventtype _ _ => String.eqb eventtype corev1.EventTypeWarning
  | reporter_Failed _ _ _ _ => true
  | _ => false
  end.

Definition warnings_recorded (es : list Effect) : list Effect :=
  List.filter records_warning es.

Definition is_lister_call (e : Effect) : bool :=
  match e with lister_SecretTLSKey _ _ => true | _ => false end.

Definition is_signing_call (e : Effect) : bool :=
  match e with call_signingFn _ _ _ _ => true | _ => false end.

(** The event of lines 140-141. *)
Definition emptyDN_event (cr : CertificateRequest) : Effect :=
  recorder_Event cr corev1.EventTypeWarning "BadConfig" emptyDNMessage.

(** A signing strategy that draws nothing from outside its arguments. *)
Definition deterministic (f : signingFn) : Prop :=
  forall issuerCert subjectCert publickey privatekey rnd1 rnd2,
    f issuerCert subjectCert publickey privatekey rnd1
    = f issuerCert subjectCert publickey privatekey rnd2.

(** What [Sign] uses of the answer of the strategy: the bytes and the
    error (lines 168-169). *)
Definition signed (answer : list Byte.byte * option x509_Certificate * option error)
    : list Byte.byte * option error :=
  (answer.1.1, answer.2).

(** Two answers of the template builder that agree on what [Sign] reads of
    them: the error, whether there is a template, its subject and its
    public key. *)
Definition builds_alike (g1 g2 : option x509_Certificate * option error) : Prop :=
  g1.2 = g2.2
  /\ match g1.1, g2.1 with
     | Some template1, Some template2 =>
         Subject template1 = Subject template2
         /\ PublicKey template1 = PublicKey template2
     | None, None => True
     | _, _ => False
     end.
End Observations.

Section Paths.
Context {types : GoTypes} {pkgs : Packages}.

(** Control reaches line 98: the annotation names the secret [secretName]
    and the lister has answered with [privatekey] and [err]. *)
Definition key_resolved (s : SelfSigned) (cr : CertificateRequest)
    (secretName : string) (privatekey : crypto_Signer) (err : option error)
    : Prop :=
  Annotations (cr_ObjectMeta cr) !! CertificateRequestPrivateKeyAnnotationKey
    = Some secretName
  /\ secretName <> ""
  /\ kube_SecretTLSKey (secretsLister s) (Namespace (cr_ObjectMeta cr)) secretName
     = (privatekey, err).

(** Control reaches line 135: the key resolves without error, the template
    is generated and the issuer is a self-signed one.  [template] is the
    template as generated at line 125, before the assignment of line 133. *)
Definition template_built (s : SelfSigned) (cr : CertificateRequest)
    (issuerObj : GenericIssuer) (rnd : Entropy) (secretName : string)
    (privatekey : crypto_Signer) (template : x509_Certificate)
    (selfSigned : SelfSignedIssuer) : Prop :=
  key_resolved s cr secretName privatekey None
  /\ pki_GenerateTemplateFromCertificateRequest cr rnd = (Some template, None)
  /\ SelfSigned_cfg (GetSpec issuerObj) = Some selfSigned.

(** What a run that reaches line 144 has done so far. *)
Definition effects_before_derivation (cr : CertificateRequest)
    (secretName : string) (template : x509_Certificate) : list Effect :=
  lister_SecretTLSKey (Namespace (cr_ObjectMeta cr)) secretName ::
  (if String.eqb (Name_String (Subject template)) ""
   then [log_Info DebugLevel
           "issued cert will have an empty issuer DN, which contravenes RFC 5280. emitting warning event";
         emptyDN_event cr]
   else []).

(** The paths through [Sign]: one constructor for each [return] of the
    source and one for the nil dereference of line 133, each with the
    conditions under which it is taken and the run it produces. *)
Inductive SignPath (s : SelfSigned) (cr : CertificateRequest)
    (issuerObj : GenericIssuer) (rnd : Entropy)
    : Go (option IssueResponse * option error) -> Prop :=
  (** line 94 *)
  | path_MissingAnnotation :
      Annotations (cr_ObjectMeta cr) !! CertificateRequestPrivateKeyAnnotationKey
        = None
      \/ Annotations (cr_ObjectMeta cr) !! CertificateRequestPrivateKeyAnnotationKey
         = Some "" ->
      SignPath s cr issuerObj rnd
        (MkGo
           [reporter_Failed cr (Some (errors.New "secret name missing"))
              "MissingAnnotation"
              ("Annotation "
                 ++ strconv_Quote CertificateRequestPrivateKeyAnnotationKey
                 ++ " missing or reference empty");
            log_Error (Some (errors.New "secret name missing"))
              ("Annotation "
                 ++ strconv_Quote CertificateRequestPrivateKeyAnnotationKey
                 ++ " missing or reference empty")]
           (Returns (None, None)))
  (** line 104 *)
  | path_MissingSecret secretName privatekey err :
      key_resolved s cr secretName privatekey err ->
      k8sErrors.IsNotFound err = true ->
      SignPath s cr issuerObj rnd
        (MkGo
           [lister_SecretTLSKey (Namespace (cr_ObjectMeta cr)) secretName;
            reporter_Pending cr err "MissingSecret"
              ("Referenced secret " ++ Namespace (cr_ObjectMeta cr) ++ "/"
                 ++ secretName ++ " not found");
            log_Error err
              ("Referenced secret " ++ Namespace (cr_ObjectMeta cr) ++ "/"
                 ++ secretName ++ " not found")]
           (Returns (None, None)))
  (** line 114 *)
  | path_ErrorParsingKey secretName privatekey err :
      key_resolved s cr secretName privatekey err ->
      k8sErrors.IsNotFound err = false ->
      cmerrors.IsInvalidData err = true ->
      SignPath s cr issuerObj rnd
        (MkGo
           [lister_SecretTLSKey (Namespace (cr_ObjectMeta cr)) secretName;
            reporter_Pending cr err "ErrorParsingKey"
              ("Failed to get key " ++ strconv_Quote secretName
                 ++ " referenced in annotation "
                 ++ strconv_Quote CertificateRequestPrivateKeyAnnotationKey);
            log_Error err
              ("Failed to get key " ++ strconv_Quote secretName
                 ++ " referenced in annotation "
                 ++ strconv_Quote CertificateRequestPrivateKeyAnnotationKey)]
           (Returns (None, None)))
  (** line 122 *)
  | path_ErrorGettingSecret secretName privatekey e :
      key_resolved s cr secretName privatekey (Some e) ->
      k8sErrors.IsNotFound (Some e) = false ->
      cmerrors.IsInvalidData (Some e) = false ->
      SignPath s cr issuerObj rnd
        (MkGo
           [lister_SecretTLSKey (Namespace (cr_ObjectMeta cr)) secretName;
            reporter_Pending cr (Some e) "ErrorGettingSecret"
              ("Failed to get certificate key pair from secret "
                 ++ ResourceNamespace (issuerOptions s) issuerObj ++ "/"
                 ++ secretName);
            log_Error (Some e)
              ("Failed to get certificate key pair from secret "
                 ++ ResourceNamespace (issuerOptions s) issuerObj ++ "/"
                 ++ secretName)]
           (Returns (None, Some e)))
  (** line 130 *)
  | path_ErrorGenerating secretName privatekey template e :
      key_resolved s cr secretName privatekey None ->
      pki_GenerateTemplateFromCertificateRequest cr rnd = (template, Some e) ->
      SignPath s cr issuerObj rnd
        (MkGo
           [lister_SecretTLSKey (Namespace (cr_ObjectMeta cr)) secretName;
            reporter_Failed cr (Some e) "ErrorGenerating"
              "Error generating certificate template";
            log_Error (Some e) "Error generating certificate template"]
           (Returns (None, None)))
  (** line 133, on a nil template or an issuer that is not self-signed *)
  | path_nil_dereference secretName privatekey template :
      key_resolved s cr secretName privatekey None ->
      pki_GenerateTemplateFromCertificateRequest cr rnd = (template, None) ->
      template = None \/ SelfSigned_cfg (GetSpec issuerObj) = None ->
      SignPath s cr issuerObj rnd
        (MkGo
           [lister_SecretTLSKey (Namespace (cr_ObjectMeta cr)) secretName]
           (Panics nil_dereference))
  (** line 150 *)
  | path_ErrorPublicKey secretName privatekey template selfSigned publickey e :
      template_built s cr issuerObj rnd secretName privatekey template selfSigned ->
      pki_PublicKeyForPrivateKey privatekey = (publickey, Some e) ->
      SignPath s cr issuerObj rnd
        (MkGo
           (effects_before_derivation cr secretName template
              ++ [reporter_Failed cr (Some e) "ErrorPublicKey"
                    "Failed to get public key from private key";
                  log_Error (Some e) "Failed to get public key from private key"])
           (Returns (None, None)))
  (** line 164 *)
  | path_ErrorKeyMatch secretName privatekey template selfSigned publickey
        ok err :
      template_built s cr issuerObj rnd secretName privatekey template selfSigned ->
      pki_PublicKeyForPrivateKey privatekey = (publickey, None) ->
      pki_PublicKeysEqual publickey (PublicKey template) = (ok, err) ->
      ok = false \/ err <> None ->
      SignPath s cr issuerObj rnd
        (MkGo
           (effects_before_derivation cr secretName template
              ++ [reporter_Failed cr
                    (match err with
                     | Some e => Some e
                     | None =>
                         Some (errors.New "CSR not signed by referenced private key")
                     end)
                    "ErrorKeyMatch" "Error generating certificate template";
                  log_Error
                    (match err with
                     | Some e => Some e
                     | None =>
                         Some (errors.New "CSR not signed by referenced private key")
                     end)
                    "Error generating certificate template"])
           (Returns (None, None)))
  (** line 173 *)
  | path_ErrorSigning secretName privatekey template selfSigned publickey
        certPem crt e :
      template_built s cr issuerObj rnd secretName privatekey template selfSigned ->
      pki_PublicKeyForPrivateKey privatekey = (publickey, None) ->
      pki_PublicKeysEqual publickey (PublicKey template) = (true, None) ->
      s_signingFn s
        (set_CRLDistributionPoints template (ss_CRLDistributionPoints selfSigned))
        (set_CRLDistributionPoints template (ss_CRLDistributionPoints selfSigned))
        publickey privatekey rnd = (certPem, crt, Some e) ->
      SignPath s cr issuerObj rnd
        (MkGo
           (effects_before_derivation cr secretName template
              ++ [call_signingFn
                    (set_CRLDistributionPoints template
                       (ss_CRLDistributionPoints selfSigned))
                    (set_CRLDistributionPoints template
                       (ss_CRLDistributionPoints selfSigned))
                    publickey privatekey;
                  reporter_Failed cr (Some e) "ErrorSigning"
                    "Error signing certificate";
                  log_Error (Some e) "Error signing certificate"])
           (Returns (None, None)))
  (** line 179 *)
  | path_issued secretName privatekey template selfSigned publickey
        certPem crt :
      template_built s cr issuerObj rnd secretName privatekey template selfSigned ->
      pki_PublicKeyForPrivateKey privatekey = (publickey, None) ->
      pki_PublicKeysEqual publickey (PublicKey template) = (true, None) ->
      s_signingFn s
        (set_CRLDistributionPoints template (ss_CRLDistributionPoints selfSigned))
        (set_CRLDistributionPoints template (ss_CRLDistributionPoints selfSigned))
        publickey privatekey rnd = (certPem, crt, None) ->
      SignPath s cr issuerObj rnd
        (MkGo
           (effects_before_derivation cr secretName template
              ++ [call_signingFn
                    (set_CRLDistributionPoints template
                       (ss_CRLDistributionPoints selfSigned))
                    (set_CRLDistributionPoints template
                       (ss_CRLDistributionPoints selfSigned))
                    publickey privatekey;
                  log_Info DebugLevel "self signed certificate issued"])
           (Returns (Some {| Certificate := certPem; CA := certPem |}, None))).
End Paths.

(** ** Test doubles

    A concrete instance of the imported packages, small enough to run
    [Sign] on: keys are numbers, a subject name is its own string, the
    lister is a finite map from [namespace/name] to a key or to the error
    the lookup produces. *)

Definition test_types : GoTypes := {|
  crypto_Signer := Z;
  crypto_PublicKey := Z;
  pkix_Name := string;
  Name_String := fun n => n;
  x509_Fields := Z;
  SecretLister := gmap string (Z + error);
  IssuerOptions := string;
  Entropy := Z
|}.

Definition test_quote (s : string) : string :=
  String (Ascii.ascii_of_nat 34) (s ++ String (Ascii.ascii_of_nat 34) EmptyString).

Definition test_SecretTLSKey (lister : gmap string (Z + error))
    (namespace name : string) : Z * option error :=
  match lister !! (namespace ++ "/" ++ name) with
  | Some (inl key) => (key, None)
  | Some (inr err) => (0%Z, Some err)
  | None => (0%Z, Some (StatusError k8sErrors.StatusReasonNotFound "secret not found"))
  end.

(** The first byte of the request stands for its public key, the object
    name for the common name; an empty request does not decode.  The
    serial number, kept in the other fields, is drawn from outside. *)
Definition test_GenerateTemplate (cr : CertificateRequest) (rnd : Z)
    : option (@x509_Certificate test_types) * option error :=
  match Request (cr_Spec cr) with
  | [] => (None, Some (errors.New "error decoding certificate request PEM block"))
  | b :: _ =>
      (Some (@Build_x509_Certificate test_types
               (if String.eqb (Name (cr_ObjectMeta cr)) "" then ""
                else "CN=" ++ Name (cr_ObjectMeta cr))
               (Z.of_N (Byte.to_N b) - 128)%Z
               ["http://request.example/crl"]
               rnd), None)
  end.

Definition test_PublicKeyForPrivateKey (privatekey : Z) : Z * option error :=
  if (privatekey <? 0)%Z
  then (0%Z, Some (errors.New "unknown private key type"))
  else (privatekey, None).

Definition test_PublicKeysEqual (a b : Z) : bool * option error :=
  if (b <? 0)%Z
  then (false, Some (errors.New "unrecognised public key type"))
  else ((a =? b)%Z, None).

Definition test_packages : @Packages test_types := {|
  CertificateRequestPrivateKeyAnnotationKey := "cert-manager.io/private-key-secret-name";
  DebugLevel := 4%Z;
  strconv_Quote := test_quote;
  ResourceNamespace := fun (clusterResourceNamespace : @IssuerOptions test_types) issuerObj =>
    if String.eqb (Namespace (GetObjectMeta issuerObj)) ""
    then clusterResourceNamespace
    else Namespace (GetObjectMeta issuerObj);
  kube_SecretTLSKey := test_SecretTLSKey;
  pki_GenerateTemplateFromCertificateRequest := test_GenerateTemplate;
  pki_PublicKeyForPrivateKey := test_PublicKeyForPrivateKey;
  pki_PublicKeysEqual := test_PublicKeysEqual
|}.

(** A reproducible strategy: the bytes depend on the arguments only.  It
    refuses the private key 13. *)
Definition fixed_signingFn : @signingFn test_types :=
  fun issuerCert subjectCert publickey privatekey _ =>
    if (privatekey =? 13)%Z
    then ([], None, Some (errors.New "signing refused"))
    else ([Byte.x30; Byte.x82], Some subjectCert, None).

(** A strategy that is a function of its arguments and encodes the serial
    number of the template it is given. *)
Definition serial_signingFn : @signingFn test_types :=
  fun issuerCert subjectCert publickey privatekey _ =>
    ([Byte.x30; if Z.even (OtherFields subjectCert) then Byte.x00 else Byte.x01],
     Some subjectCert, None).

(** A strategy in the manner of the production one: the serial number is
    drawn from outside. *)
Definition random_signingFn : @signingFn test_types :=
  fun issuerCert subjectCert publickey privatekey rnd =>
    ([Byte.x30; if Z.even rnd then Byte.x00 else Byte.x01], Some subjectCert, None).

Definition test_lister : gmap string (Z + error) :=
  {[ "default/good-key" := inl 7%Z;
     "default/other-key" := inl 8%Z;
     "default/odd-key" := inl (-1)%Z;
     "default/refused-key" := inl 13%Z;
     "default/garbled" := inr (invalidData "error decoding private key PEM block");
     "default/unreachable" := inr (errors.New "connection refused") ]}.

Definition test_s (f : @signingFn test_types) : @SelfSigned test_types :=
  {| issuerOptions := "cert-manager" : @IssuerOptions test_types;
     secretsLister := test_lister : @SecretLister test_types;
     s_signingFn := f |}.

(** A request named [name] in namespace [default], for the public key
    [key], whose annotations are [annotations]. *)
Definition test_request (name : string) (annotations : gmap string string)
    (key : Byte.byte) : CertificateRequest :=
  {| cr_ObjectMeta :=
       {| Name := name; Namespace := "default"; Annotations := annotations |};
     cr_Spec := {| Request := [key]; IsCA := false; Usages := [] |} |}.

Definition key_annotation (secretName : string) : gmap string string :=
  {[ "cert-manager.io/private-key-secret-name" := secretName ]}.

Definition test_issuer (selfSigned : option SelfSignedIssuer) : GenericIssuer :=
  {| GetObjectMeta := {| Name := "selfsigned"; Namespace := ""; Annotations := ∅ |};
     GetSpec := {| SelfSigned_cfg := selfSigned |} |}.

Definition issuer_crl : SelfSignedIssuer :=
  {| ss_CRLDistributionPoints := ["http://issuer.example/crl"] |}.

Definition test_selfsigned : option SelfSignedIssuer := Some issuer_crl.

(** [Sign] on the doubles. *)
Definition test_Sign (f : @signingFn test_types) (cr : CertificateRequest)
    (issuerObj : GenericIssuer) (rnd : Z) :=
  @Sign test_types test_packages (test_s f) cr issuerObj rnd.


(** The template that [test_GenerateTemplate] derives from a request when
    it draws the serial number 0. *)
Definition test_template (subject : string) (key : Z)
    : @x509_Certificate test_types :=
  @Build_x509_Certificate test_types subject key ["http://request.example/crl"] 0%Z.

(** *** The requests and runs used as examples below *)

(** A request named [example] for the key in [good-key]: issued. *)
Definition named_request : CertificateRequest :=
  test_request "example" (key_annotation "good-key") Byte.x87.

Definition issued_run :=
  test_Sign fixed_signingFn named_request (test_issuer test_selfsigned) 0.

(** The same request without a name, hence with an empty subject. *)
Definition unnamed_request : CertificateRequest :=
  test_request "" (key_annotation "good-key") Byte.x87.

Definition issued_emptyDN_run :=
  test_Sign fixed_signingFn unnamed_request (test_issuer test_selfsigned) 0.

(** A named request that refers to the wrong key. *)
Definition mismatched_request : CertificateRequest :=
  test_request "example" (key_annotation "other-key") Byte.x87.

Definition mismatch_run :=
  test_Sign fixed_signingFn mismatched_request (test_issuer test_selfsigned) 0.

(** Requests without a name: one that refers to the wrong key, one to a key
    with no public part, one to the key that the strategy refuses. *)
Definition unnamed_mismatched_request : CertificateRequest :=
  test_request "" (key_annotation "other-key") Byte.x87.

Definition mismatch_emptyDN_run :=
  test_Sign fixed_signingFn unnamed_mismatched_request
    (test_issuer test_selfsigned) 0.

Definition unnamed_underivable_request : CertificateRequest :=
  test_request "" (key_annotation "odd-key") Byte.x87.

Definition underivable_emptyDN_run :=
  test_Sign fixed_signingFn unnamed_underivable_request
    (test_issuer test_selfsigned) 0.

Definition unnamed_refused_request : CertificateRequest :=
  test_request "" (key_annotation "refused-key") Byte.x8d.

Definition refused_emptyDN_run :=
  test_Sign fixed_signingFn unnamed_refused_request
    (test_issuer test_selfsigned) 0.

(** A request whose secret cannot be fetched, and one without annotation. *)
Definition unreachable_request : CertificateRequest :=
  test_request "example" (key_annotation "unreachable") Byte.x87.

Definition unreachable_run :=
  test_Sign fixed_signingFn unreachable_request (test_issuer test_selfsigned) 0.

(** A request whose secret does not exist, and one whose secret holds no
    usable key. *)
Definition absent_request : CertificateRequest :=
  test_request "example" (key_annotation "absent") Byte.x87.

Definition absent_run :=
  test_Sign fixed_signingFn absent_request (test_issuer test_selfsigned) 0.

Definition garbled_request : CertificateRequest :=
  test_request "example" (key_annotation "garbled") Byte.x87.

Definition garbled_run :=
  test_Sign fixed_signingFn garbled_request (test_issuer test_selfsigned) 0.

Definition unannotated_request : CertificateRequest :=
  test_request "example" ∅ Byte.x87.

Definition unannotated_run :=
  test_Sign fixed_signingFn unannotated_request (test_issuer test_selfsigned) 0.

(** A request whose payload does not decode. *)
Definition undecodable_request : CertificateRequest :=
  {| cr_ObjectMeta :=
       {| Name := "example"; Namespace := "default";
          Annotations := key_annotation "good-key" |};
     cr_Spec := {| Request := []; IsCA := false; Usages := [] |} |}.

Definition undecodable_run :=
  test_Sign fixed_signingFn undecodable_request (test_issuer test_selfsigned) 0.

(** The issuer of [test_s] with other issuer options. *)
Definition other_options_s : @SelfSigned test_types :=
  {| issuerOptions := "kube-system" : @IssuerOptions test_types;
     secretsLister := test_lister : @SecretLister test_types;
     s_signingFn := fixed_signingFn |}.

Definition issued_response : IssueResponse :=
  {| Certificate := [Byte.x30; Byte.x82]; CA := [Byte.x30; Byte.x82] |}.

(** * Properties of [Sign] *)

#[global] Arguments k8sErrors.IsNotFound : simpl never.
#[global] Arguments cmerrors.IsInvalidData : simpl never.

(** One step along [Sign]: use what is known about the scrutinee at hand,
    or else split on it. *)
Ltac sign_step :=
  match goal with
  | |- context [k8sErrors.IsNotFound None] =>
      change (k8sErrors.IsNotFound None) with false
  | |- context [cmerrors.IsInvalidData None] =>
      change (cmerrors.IsInvalidData None) with false
  | H : ?l = _ |- context [?l] => rewrite H
  | |- context [match ?m !! ?k with _ => _ end] => destruct (m !! k) eqn:?
  | |- context [let (_, _) := ?e in _] => destruct e eqn:?
  | |- context [not_nil ?x] => is_var x; destruct x
  | |- context [negb ?x] => is_var x; destruct x
  | |- context [if ?b then _ else _] => destruct b eqn:?
  | |- context [match ?x with Some _ => _ | None => _ end] => destruct x eqn:?
  end.

Ltac string_tests :=
  repeat match goal with
    | H : String.eqb _ _ = true |- _ => apply String.eqb_eq in H
    | H : String.eqb _ _ = false |- _ => apply String.eqb_neq in H
    end.

Ltac string_facts :=
  repeat match goal with
    | H : @eq string _ _ |- _ => apply String.eqb_eq in H
    | H : not (@eq string _ _) |- _ => apply String.eqb_neq in H
    end.

(** Splits a goal about [Sign] into one goal per path through it. *)
Ltac sign_paths := unfold Sign, index_ok; repeat (cbn; sign_step); cbn.

Ltac sign_solve :=
  intros; string_facts; sign_paths; string_tests; simplify_eq/=;
  try done; try congruence; try (intuition congruence).

(** Case analysis of a membership in an explicit trace. *)
Ltac invert_mem H :=
  repeat (apply elem_of_cons in H; destruct H as [H|H];
          [try discriminate H|]);
  try (apply elem_of_nil in H; destruct H).

Section Properties.
Context {types : GoTypes} {pkgs : Packages}.

(** ** The paths through [Sign] *)

(** Every path produces the run that [Sign] computes. *)
Lemma SignPath_sound (s : SelfSigned) (cr : CertificateRequest)
    (issuerObj : GenericIssuer) (rnd : Entropy)
    (run : Go (option IssueResponse * option error)) :
  SignPath s cr issuerObj rnd run -> Sign s cr issuerObj rnd = run.
Proof.
  unfold effects_before_derivation, emptyDN_event.
  destruct 1;
    repeat match goal with
      | Hb : template_built _ _ _ _ _ _ _ _ |- _ => destruct Hb as (Hb & ? & ?)
      | Hr : key_resolved _ _ _ _ _ |- _ => destruct Hr as (? & ? & ?)
      | Hd : _ \/ _ |- _ => destruct Hd
      end;
    sign_solve.
Qed.

(** [Sign] takes one of the paths. *)
Lemma Sign_path (s : SelfSigned) (cr : CertificateRequest)
    (issuerObj : GenericIssuer) (rnd : Entropy) :
  SignPath s cr issuerObj rnd (Sign s cr issuerObj rnd).
Proof.
  cut (exists run, SignPath s cr issuerObj rnd run).
  { intros [run Hp]. rewrite (SignPath_sound _ _ _ _ _ Hp). exact Hp. }
  destruct (Annotations (cr_ObjectMeta cr)
              !! CertificateRequestPrivateKeyAnnotationKey)
    as [secretName|] eqn:Ha;
    [destruct (decide (secretName = "")) as [->|Hne]|];
    [eexists; apply path_MissingAnnotation; auto | |
     eexists; apply path_MissingAnnotation; auto].
  destruct (kube_SecretTLSKey (secretsLister s) (Namespace (cr_ObjectMeta cr))
              secretName) as [privatekey err] eqn:Hk.
  assert (Hr : key_resolved s cr secretName privatekey err) by done.
  destruct (k8sErrors.IsNotFound err) eqn:Hnf;
    [eexists; eapply path_MissingSecret; eauto|].
  destruct (cmerrors.IsInvalidData err) eqn:Hinv;
    [eexists; eapply path_ErrorParsingKey; eauto|].
  destruct err as [e|]; [eexists; eapply path_ErrorGettingSecret; eauto|].
  destruct (pki_GenerateTemplateFromCertificateRequest cr rnd)
    as [template [e|]] eqn:Hg;
    [eexists; eapply path_ErrorGenerating; eauto|].
  destruct template as [template|];
    [|eexists; eapply path_nil_dereference; eauto].
  destruct (SelfSigned_cfg (GetSpec issuerObj)) as [selfSigned|] eqn:Hss;
    [|eexists; eapply path_nil_dereference; eauto].
  assert (Hb : template_built s cr issuerObj rnd secretName privatekey template
                 selfSigned) by done.
  destruct (pki_PublicKeyForPrivateKey privatekey) as [publickey [e|]] eqn:Hpub;
    [eexists; eapply path_ErrorPublicKey; eauto|].
  destruct (pki_PublicKeysEqual publickey (PublicKey template))
    as [ok err] eqn:Heq.
  destruct (decide (ok = false \/ err <> None)) as [Hbad|Hgood];
    [eexists; eapply path_ErrorKeyMatch; eauto|].
  assert (ok = true /\ err = None) as [-> ->]
    by (destruct ok, err; intuition congruence).
  destruct (s_signingFn s
              (set_CRLDistributionPoints template
                 (ss_CRLDistributionPoints selfSigned))
              (set_CRLDistributionPoints template
                 (ss_CRLDistributionPoints selfSigned))
              publickey privatekey rnd) as [[certPem crt] [e|]] eqn:Hsig;
    eexists; [eapply path_ErrorSigning | eapply path_issued]; eauto.
Qed.

Ltac unpack_path :=
  repeat match goal with
    | Hb : template_built _ _ _ _ _ _ _ _ |- _ => destruct Hb as (Hb & ? & ?)
    | Hr : key_resolved _ _ _ _ _ |- _ => destruct Hr as (? & ? & ?)
    end.

Ltac merge_eqs :=
  simplify_eq;
  repeat match goal with
    | H1 : ?l = _, H2 : ?l = _ |- _ => rewrite H1 in H2; simplify_eq
    end.

Ltac open_trace :=
  unfold effects_before_derivation, outcomes, warning_events in *;
  repeat match goal with
    | |- context [if ?b then _ else _] => destruct b eqn:?
    end;
  cbn.

(** Case analysis on the path taken by [Sign s cr issuerObj rnd]. *)
Ltac sign_cases s cr issuerObj rnd :=
  destruct (Sign_path s cr issuerObj rnd); unpack_path; merge_eqs; open_trace.

(** ** The result *)

(** C1. Self-signing invariant: whenever [Sign] returns a response, the
    response's certificate and its CA are the same bytes. *)
Theorem Sign_self_signed (s : SelfSigned) (cr : CertificateRequest)
    (issuerObj : GenericIssuer) (rnd : Entropy) (resp : IssueResponse)
    (err : option error) :
  result (Sign s cr issuerObj rnd) = Returns (Some resp, err) ->
  Certificate resp = CA resp.
Proof.
  sign_cases s cr issuerObj rnd; try discriminate.
  all: intros [= <- <-]; reflexivity.
Qed.

(** ** Failures and what the caller sees *)

Lemma invalid_data_not_not_found (err : option error) :
  cmerrors.IsInvalidData err = true -> k8sErrors.IsNotFound err = false.
Proof. destruct err as [[]|]; cbv; congruence. Qed.

(** C2. [Sign] returns an error exactly when the lister fails with an error
    that is neither not-found nor invalid-data; the error returned is the
    lister's and the request is reported pending with reason
    [ErrorGettingSecret].  Every report carries one of eight reasons, and
    with any of the other seven [Sign] returns [(nil, nil)].  A not-found
    error leaves the request pending with reason [MissingSecret], an
    invalid-data error with reason [ErrorParsingKey], both with a nil
    error. *)
Theorem Sign_error_propagation (s : SelfSigned) (cr : CertificateRequest)
    (issuerObj : GenericIssuer) (rnd : Entropy) :
  let run := Sign s cr issuerObj rnd in
  (forall resp e,
     result run = Returns (resp, Some e) <->
     resp = None
     /\ exists secretName privatekey,
          key_resolved s cr secretName privatekey (Some e)
          /\ k8sErrors.IsNotFound (Some e) = false
          /\ cmerrors.IsInvalidData (Some e) = false)
  /\ (forall resp e,
        result run = Returns (resp, Some e) ->
        exists message,
          outcomes (effects run)
          = [PendingRetryable "ErrorGettingSecret" message (Some e)])
  /\ (forall o,
        o ∈ outcomes (effects run) ->
        exists reason,
          outcome_reason o = Some reason
          /\ reason ∈ ["MissingAnnotation"; "MissingSecret"; "ErrorParsingKey";
                       "ErrorGettingSecret"; "ErrorGenerating"; "ErrorPublicKey";
                       "ErrorKeyMatch"; "ErrorSigning"]
          /\ (reason <> "ErrorGettingSecret" -> result run = Returns (None, None)))
  /\ (forall secretName privatekey err,
        key_resolved s cr secretName privatekey err ->
        (k8sErrors.IsNotFound err = true ->
         exists message,
           outcomes (effects run) = [PendingRetryable "MissingSecret" message err]
           /\ result run = Returns (None, None))
        /\ (cmerrors.IsInvalidData err = true ->
            exists message,
              outcomes (effects run)
              = [PendingRetryable "ErrorParsingKey" message err]
              /\ result run = Returns (None, None))).
Proof.
  intros run. subst run.
  split; [intros resp e; split|];
    [| | split; [intros resp e|];
         [| split; [intros o | intros secretName privatekey err Hr; split]]].
  - sign_cases s cr issuerObj rnd; try discriminate.
    intros [= <- <-]. split; [done|]. eexists _, _. by repeat split.
  - intros (-> & secretName & privatekey & Hr & Hnf & Hinv).
    by rewrite (SignPath_sound _ _ _ _ _
                  (path_ErrorGettingSecret _ _ _ _ _ _ _ Hr Hnf Hinv)).
  - sign_cases s cr issuerObj rnd; try discriminate.
    intros [= <- <-]. by eexists.
  - sign_cases s cr issuerObj rnd.
    all: intros Hin; invert_mem Hin; subst o.
    all: try match goal with
           | |- context [match ?e with Some _ => _ | None => _ end] => destruct e
           end.
    all: eexists; split; [reflexivity|]; split; [|done].
    all: repeat (apply elem_of_cons; first [left; reflexivity | right]).
  - intros Hnf.
    rewrite (SignPath_sound _ _ _ _ _ (path_MissingSecret _ _ _ rnd _ _ _ Hr Hnf)).
    by eexists.
  - intros Hinv.
    rewrite (SignPath_sound _ _ _ _ _
               (path_ErrorParsingKey _ _ _ rnd _ _ _ Hr
                  (invalid_data_not_not_found _ Hinv) Hinv)).
    by eexists.
Qed.

(** C3, as the code has it. [Sign] reports at most one outcome and never
    [Ready].  An invocation that returns no response has reported exactly
    one outcome, failed or pending.  An invocation that returns a response
    has reported nothing: the response holds the bytes the signing strategy
    returned, as certificate and as CA, and the error is nil. *)
Theorem Sign_reports_failures_once (s : SelfSigned) (cr : CertificateRequest)
    (issuerObj : GenericIssuer) (rnd : Entropy) :
  let run := Sign s cr issuerObj rnd in
  length (outcomes (effects run)) <= 1
  /\ (Ready ∉ outcomes (effects run))
  /\ (forall err,
        result run = Returns (None, err) ->
        exists o, outcomes (effects run) = [o])
  /\ (forall resp err,
        result run = Returns (Some resp, err) ->
        err = None
        /\ outcomes (effects run) = []
        /\ exists template publickey privatekey crt,
             call_signingFn template template publickey privatekey ∈ effects run
             /\ s_signingFn s template template publickey privatekey rnd
                = (Certificate resp, crt, None)
             /\ CA resp = Certificate resp).
Proof.
  intros run. subst run.
  split; [|split; [|split; [intros err | intros resp err]]].
  - sign_cases s cr issuerObj rnd; lia.
  - sign_cases s cr issuerObj rnd.
    all: intros Hin; invert_mem Hin.
  - sign_cases s cr issuerObj rnd; try discriminate.
    all: intros _; by eexists.
  - sign_cases s cr issuerObj rnd; try discriminate.
    all: intros [= <- <-]; split; [done|]; split; [done|].
    all: eexists _, _, _, _; split; [|split; [eassumption|reflexivity]].
    all: repeat (apply elem_of_cons; first [left; reflexivity | right]).
Qed.

(** C4. A request whose private-key annotation is absent or empty is
    failed with reason [MissingAnnotation] and [Sign] returns [(nil, nil)],
    whatever the other inputs are.  The run consists of the report and its
    log line: the lister and the signing strategy are not called. *)
Theorem Sign_missing_annotation_fails (s : SelfSigned)
    (cr : CertificateRequest) (issuerObj : GenericIssuer) (rnd : Entropy) :
  Annotations (cr_ObjectMeta cr) !! CertificateRequestPrivateKeyAnnotationKey = None
  \/ Annotations (cr_ObjectMeta cr) !! CertificateRequestPrivateKeyAnnotationKey
     = Some "" ->
  let run := Sign s cr issuerObj rnd in
  let message :=
    "Annotation " ++ strconv_Quote CertificateRequestPrivateKeyAnnotationKey
      ++ " missing or reference empty" in
  let err := Some (errors.New "secret name missing") in
  outcomes (effects run) = [FailedTerminal "MissingAnnotation" message err]
  /\ result run = Returns (None, None)
  /\ effects run
     = [reporter_Failed cr err "MissingAnnotation" message; log_Error err message]
  /\ List.filter is_lister_call (effects run) = []
  /\ List.filter is_signing_call (effects run) = [].
Proof.
  intros Hm run. subst run.
  rewrite (SignPath_sound _ _ _ _ _ (path_MissingAnnotation s cr issuerObj rnd Hm)).
  repeat split.
Qed.

(** ** The warning for an empty issuer DN *)

(** C5, as the code has it. Once the template is generated, [Sign] sends
    the warning for an empty issuer DN (type [Warning], reason
    [BadConfig]) once when the subject of the template prints as the empty
    string, whether the request is then issued or not, and never
    otherwise.  In a run that issues the request these are all the
    warning-severity events on the recorder; in a run that fails after the
    template is generated, the failure report leaves one more.  The
    request is issued whenever the key is derived, matches and signs,
    whether the subject is empty or not. *)
Theorem Sign_emptyDN_warning (s : SelfSigned) (cr : CertificateRequest)
    (issuerObj : GenericIssuer) (rnd : Entropy) :
  let run := Sign s cr issuerObj rnd in
  (forall secretName privatekey template selfSigned,
     template_built s cr issuerObj rnd secretName privatekey template selfSigned ->
     emptyDN_events (effects run)
     = (if String.eqb (Name_String (Subject template)) ""
        then [emptyDN_event cr] else [])
     /\ (forall resp err,
           result run = Returns (Some resp, err) ->
           warnings_recorded (effects run) = emptyDN_events (effects run))
     /\ (forall err,
           result run = Returns (None, err) ->
           exists e reason message,
             warnings_recorded (effects run)
             = (emptyDN_events (effects run)
                  ++ [reporter_Failed cr e reason message])%list))
  /\ (forall ev,
        ev ∈ emptyDN_events (effects run) ->
        ev = emptyDN_event cr
        /\ exists template,
             pki_GenerateTemplateFromCertificateRequest cr rnd = (Some template, None)
             /\ Name_String (Subject template) = "")
  /\ (forall secretName privatekey template selfSigned publickey certPem crt,
        template_built s cr issuerObj rnd secretName privatekey template selfSigned ->
        pki_PublicKeyForPrivateKey privatekey = (publickey, None) ->
        pki_PublicKeysEqual publickey (PublicKey template) = (true, None) ->
        s_signingFn s
          (set_CRLDistributionPoints template (ss_CRLDistributionPoints selfSigned))
          (set_CRLDistributionPoints template (ss_CRLDistributionPoints selfSigned))
          publickey privatekey rnd = (certPem, crt, None) ->
        result run
        = Returns (Some {| Certificate := certPem; CA := certPem |}, None)).
Proof.
  intros run. subst run.
  split; [intros secretName privatekey template selfSigned Hb
         | split; [intros ev | intros secretName privatekey template selfSigned
                                 publickey certPem crt Hb Hpub Heq Hsig]].
  - unfold emptyDN_events, warnings_recorded.
    split; [|split; [intros resp err | intros err]].
    + sign_cases s cr issuerObj rnd; try done.
      all: intuition congruence.
    + sign_cases s cr issuerObj rnd; try done.
      all: intuition congruence.
    + sign_cases s cr issuerObj rnd; try discriminate.
      all: try (intuition congruence).
      all: intros _; eexists _, _, _; reflexivity.
  - unfold emptyDN_events. sign_cases s cr issuerObj rnd.
    all: intros Hin; invert_mem Hin; subst ev.
    all: string_tests; split; [reflexivity|]; eauto.
  - by rewrite (SignPath_sound _ _ _ _ _
                  (path_issued _ _ _ _ _ _ _ _ _ _ _ Hb Hpub Heq Hsig)).
Qed.

(** ** The key binding *)

(** C6, as the code has it. When the public key derived from the resolved
    private key differs from the template's, or the comparison fails, the
    request is failed with reason [ErrorKeyMatch] and [Sign] returns
    [(nil, nil)]; the reported error is the comparison's own when there is
    one, and otherwise a new error whose text is
    [CSR not signed by referenced private key]. *)
Theorem Sign_key_match_failure (s : SelfSigned) (cr : CertificateRequest)
    (issuerObj : GenericIssuer) (rnd : Entropy) (secretName : string)
    (privatekey : crypto_Signer) (template : x509_Certificate)
    (selfSigned : SelfSignedIssuer) (publickey : crypto_PublicKey)
    (ok : bool) (err : option error) :
  template_built s cr issuerObj rnd secretName privatekey template selfSigned ->
  pki_PublicKeyForPrivateKey privatekey = (publickey, None) ->
  pki_PublicKeysEqual publickey (PublicKey template) = (ok, err) ->
  ok = false \/ err <> None ->
  let run := Sign s cr issuerObj rnd in
  exists e : error,
    outcomes (effects run)
    = [FailedTerminal "ErrorKeyMatch" "Error generating certificate template" (Some e)]
    /\ result run = Returns (None, None)
    /\ (err = None -> Error e = "CSR not signed by referenced private key")
    /\ (err <> None -> err = Some e).
Proof.
  intros Hb Hpub Heq Hbad run. subst run.
  rewrite (SignPath_sound _ _ _ _ _
             (path_ErrorKeyMatch _ _ _ rnd _ _ _ _ _ _ _ Hb Hpub Heq Hbad)).
  destruct err as [e|]; [exists e | eexists]; open_trace; by repeat split.
Qed.

(** C9. The warning event for an empty issuer DN is sent before the public
    key is derived, the keys are compared and the certificate is signed.
    A run with an empty subject in which one of these three steps fails
    has sent the event, then fails the request with reason
    [ErrorPublicKey], [ErrorKeyMatch] or [ErrorSigning], and returns
    [(nil, nil)]. *)
Theorem Sign_warning_then_failure (s : SelfSigned) (cr : CertificateRequest)
    (issuerObj : GenericIssuer) (rnd : Entropy) (secretName : string)
    (privatekey : crypto_Signer) (template : x509_Certificate)
    (selfSigned : SelfSignedIssuer) :
  template_built s cr issuerObj rnd secretName privatekey template selfSigned ->
  Name_String (Subject template) = "" ->
  let run := Sign s cr issuerObj rnd in
  let template' :=
    set_CRLDistributionPoints template (ss_CRLDistributionPoints selfSigned) in
  forall publickey ok err1 err2 certPem crt err3,
    pki_PublicKeyForPrivateKey privatekey = (publickey, err1) ->
    pki_PublicKeysEqual publickey (PublicKey template) = (ok, err2) ->
    s_signingFn s template' template' publickey privatekey rnd
      = (certPem, crt, err3) ->
    err1 <> None \/ err2 <> None \/ ok = false \/ err3 <> None ->
    exists (before after : list Effect) (reason message : string) (e : error),
      effects run = (before ++ emptyDN_event cr :: after)%list
      /\ outcomes before = []
      /\ List.filter is_signing_call before = []
      /\ outcomes after = [FailedTerminal reason message (Some e)]
      /\ (reason = "ErrorPublicKey" /\ err1 = Some e
          \/ reason = "ErrorKeyMatch" /\ err1 = None
             /\ (err2 <> None \/ ok = false)
          \/ reason = "ErrorSigning" /\ err1 = None /\ err2 = None
             /\ ok = true /\ err3 = Some e)
      /\ result run = Returns (None, None).
Proof.
  intros Hb Hempty run template' publickey ok err1 err2 certPem crt err3
    Hpub Heq Hsig Hbad.
  subst run template'.
  exists [lister_SecretTLSKey (Namespace (cr_ObjectMeta cr)) secretName;
          log_Info DebugLevel
            "issued cert will have an empty issuer DN, which contravenes RFC 5280. emitting warning event"].
  destruct err1 as [e1|].
  { rewrite (SignPath_sound _ _ _ _ _
               (path_ErrorPublicKey _ _ _ rnd _ _ _ _ _ _ Hb Hpub)).
    unfold effects_before_derivation. rewrite Hempty. cbn.
    eexists _, _, _, e1. repeat split; eauto. }
  destruct (decide (ok = false \/ err2 <> None)) as [Hmis|Hok].
  { rewrite (SignPath_sound _ _ _ _ _
               (path_ErrorKeyMatch _ _ _ rnd _ _ _ _ _ _ _ Hb Hpub Heq Hmis)).
    unfold effects_before_derivation. rewrite Hempty.
    destruct err2 as [e2|]; cbn; eexists _, _, _, _;
      repeat split; try reflexivity; right; left; intuition congruence. }
  assert (ok = true /\ err2 = None) as [-> ->]
    by (destruct ok, err2; intuition congruence).
  destruct err3 as [e3|]; [|intuition congruence].
  rewrite (SignPath_sound _ _ _ _ _
             (path_ErrorSigning _ _ _ _ _ _ _ _ _ _ _ _ Hb Hpub Heq Hsig)).
  unfold effects_before_derivation. rewrite Hempty. cbn.
  eexists _, _, _, e3. repeat split; eauto.
  right; right. intuition.
Qed.

(** ** The template *)

(** C7. Once the template is generated, its CRL distribution points are
    replaced by those of the issuer, whatever the generated template
    carried: the signing strategy is only ever called on that template, as
    issuer and as subject, and it is called on it whenever the key is
    derived and matches. *)
Theorem Sign_crl_override (s : SelfSigned) (cr : CertificateRequest)
    (issuerObj : GenericIssuer) (rnd : Entropy) (secretName : string)
    (privatekey : crypto_Signer) (template : x509_Certificate)
    (selfSigned : SelfSignedIssuer) :
  template_built s cr issuerObj rnd secretName privatekey template selfSigned ->
  let run := Sign s cr issuerObj rnd in
  let template' :=
    set_CRLDistributionPoints template (ss_CRLDistributionPoints selfSigned) in
  CRLDistributionPoints template' = ss_CRLDistributionPoints selfSigned
  /\ (forall issuerCert subjectCert publickey key,
        call_signingFn issuerCert subjectCert publickey key ∈ effects run ->
        issuerCert = template' /\ subjectCert = template'
        /\ CRLDistributionPoints subjectCert = ss_CRLDistributionPoints selfSigned)
  /\ (forall publickey,
        pki_PublicKeyForPrivateKey privatekey = (publickey, None) ->
        pki_PublicKeysEqual publickey (PublicKey template) = (true, None) ->
        call_signingFn template' template' publickey privatekey ∈ effects run).
Proof.
  intros Hb run template'. subst run template'.
  split; [reflexivity|].
  split; [intros issuerCert subjectCert publickey key
         | intros publickey Hpub Heq].
  - sign_cases s cr issuerObj rnd.
    all: intros Hin; invert_mem Hin; by simplify_eq.
  - sign_cases s cr issuerObj rnd; try (intuition congruence).
    all: repeat (apply elem_of_cons; first [left; reflexivity | right]).
Qed.

(** ** Determinism *)

(** C8, as the code has it. The template is built anew on every
    invocation, so a strategy that is a function of its arguments is not
    enough.  When the builder answers alike in the two invocations (same
    error, same subject and public key) and the strategy returns the same
    bytes and error on the two templates, two invocations on the same
    request, issuer and lister return the same response and error and
    report the same outcome and warning. *)
Theorem Sign_deterministic (s : SelfSigned) (cr : CertificateRequest)
    (issuerObj : GenericIssuer) (rnd1 rnd2 : Entropy) :
  builds_alike (pki_GenerateTemplateFromCertificateRequest cr rnd1)
    (pki_GenerateTemplateFromCertificateRequest cr rnd2) ->
  (forall template1 template2 selfSigned publickey privatekey,
     pki_GenerateTemplateFromCertificateRequest cr rnd1 = (Some template1, None) ->
     pki_GenerateTemplateFromCertificateRequest cr rnd2 = (Some template2, None) ->
     SelfSigned_cfg (GetSpec issuerObj) = Some selfSigned ->
     signed (s_signingFn s
               (set_CRLDistributionPoints template1
                  (ss_CRLDistributionPoints selfSigned))
               (set_CRLDistributionPoints template1
                  (ss_CRLDistributionPoints selfSigned))
               publickey privatekey rnd1)
     = signed (s_signingFn s
                 (set_CRLDistributionPoints template2
                    (ss_CRLDistributionPoints selfSigned))
                 (set_CRLDistributionPoints template2
                    (ss_CRLDistributionPoints selfSigned))
                 publickey privatekey rnd2)) ->
  result (Sign s cr issuerObj rnd1) = result (Sign s cr issuerObj rnd2)
  /\ outcomes (effects (Sign s cr issuerObj rnd1))
     = outcomes (effects (Sign s cr issuerObj rnd2))
  /\ warning_events (effects (Sign s cr issuerObj rnd1))
     = warning_events (effects (Sign s cr issuerObj rnd2)).
Proof.
  intros Halike Hsigned.
  destruct (pki_GenerateTemplateFromCertificateRequest cr rnd2)
    as [built2 err2] eqn:Hg2.
  destruct (Sign_path s cr issuerObj rnd1)
    as [Hm
       |secretName privatekey err Hr Hnf
       |secretName privatekey err Hr Hnf Hinv
       |secretName privatekey e Hr Hnf Hinv
       |secretName privatekey built1 e Hr Hg1
       |secretName privatekey built1 Hr Hg1 Hnil
       |secretName privatekey template1 selfSigned publickey e Hb Hpub
       |secretName privatekey template1 selfSigned publickey ok err Hb Hpub Heq Hbad
       |secretName privatekey template1 selfSigned publickey certPem crt e
          Hb Hpub Heq Hsig
       |secretName privatekey template1 selfSigned publickey certPem crt
          Hb Hpub Heq Hsig].
  - by rewrite (SignPath_sound _ _ _ _ _ (path_MissingAnnotation s cr issuerObj rnd2 Hm)).
  - by rewrite (SignPath_sound _ _ _ _ _ (path_MissingSecret _ _ _ rnd2 _ _ _ Hr Hnf)).
  - by rewrite (SignPath_sound _ _ _ _ _
                  (path_ErrorParsingKey _ _ _ rnd2 _ _ _ Hr Hnf Hinv)).
  - by rewrite (SignPath_sound _ _ _ _ _
                  (path_ErrorGettingSecret _ _ _ rnd2 _ _ _ Hr Hnf Hinv)).
  - rewrite Hg1 in Halike. destruct Halike as [Herr _]. cbn in Herr. subst err2.
    by rewrite (SignPath_sound _ _ _ _ _
                  (path_ErrorGenerating _ _ _ rnd2 _ _ _ _ Hr Hg2)).
  - rewrite Hg1 in Halike. destruct Halike as [Herr Hboth]. cbn in Herr, Hboth.
    subst err2.
    assert (Hnil2 : built2 = None \/ SelfSigned_cfg (GetSpec issuerObj) = None).
    { destruct Hnil as [->|Hcfg]; [|by right].
      destruct built2; [destruct Hboth | by left]. }
    by rewrite (SignPath_sound _ _ _ _ _
                  (path_nil_dereference _ _ _ rnd2 _ _ _ Hr Hg2 Hnil2)).
  - destruct Hb as (Hr & Hg1 & Hcfg).
    rewrite Hg1 in Halike. destruct Halike as [Herr Hboth]. cbn in Herr, Hboth.
    subst err2. destruct built2 as [template2|]; [|destruct Hboth].
    destruct Hboth as [Hsubject Hkey].
    rewrite (SignPath_sound _ _ _ _ _
               (path_ErrorPublicKey _ _ _ rnd2 _ _ _ _ _ _
                  (conj Hr (conj Hg2 Hcfg)) Hpub)).
    unfold effects_before_derivation. rewrite Hsubject. by open_trace.
  - destruct Hb as (Hr & Hg1 & Hcfg).
    rewrite Hg1 in Halike. destruct Halike as [Herr Hboth]. cbn in Herr, Hboth.
    subst err2. destruct built2 as [template2|]; [|destruct Hboth].
    destruct Hboth as [Hsubject Hkey]. rewrite Hkey in Heq.
    rewrite (SignPath_sound _ _ _ _ _
               (path_ErrorKeyMatch _ _ _ rnd2 _ _ _ _ _ _ _
                  (conj Hr (conj Hg2 Hcfg)) Hpub Heq Hbad)).
    unfold effects_before_derivation. rewrite Hsubject. by open_trace.
  - destruct Hb as (Hr & Hg1 & Hcfg).
    rewrite Hg1 in Halike. destruct Halike as [Herr Hboth]. cbn in Herr, Hboth.
    subst err2. destruct built2 as [template2|]; [|destruct Hboth].
    destruct Hboth as [Hsubject Hkey]. rewrite Hkey in Heq.
    pose proof (Hsigned _ _ _ publickey privatekey Hg1 eq_refl Hcfg) as Hsame.
    rewrite Hsig in Hsame.
    destruct (s_signingFn s
                (set_CRLDistributionPoints template2
                   (ss_CRLDistributionPoints selfSigned))
                (set_CRLDistributionPoints template2
                   (ss_CRLDistributionPoints selfSigned))
                publickey privatekey rnd2) as [[certPem2 crt2] e2] eqn:Hsig2.
    injection Hsame as <- <-.
    rewrite (SignPath_sound _ _ _ _ _
               (path_ErrorSigning _ _ _ rnd2 _ _ _ _ _ _ _ _
                  (conj Hr (conj Hg2 Hcfg)) Hpub Heq Hsig2)).
    unfold effects_before_derivation. rewrite Hsubject. by open_trace.
  - destruct Hb as (Hr & Hg1 & Hcfg).
    rewrite Hg1 in Halike. destruct Halike as [Herr Hboth]. cbn in Herr, Hboth.
    subst err2. destruct built2 as [template2|]; [|destruct Hboth].
    destruct Hboth as [Hsubject Hkey]. rewrite Hkey in Heq.
    pose proof (Hsigned _ _ _ publickey privatekey Hg1 eq_refl Hcfg) as Hsame.
    rewrite Hsig in Hsame.
    destruct (s_signingFn s
                (set_CRLDistributionPoints template2
                   (ss_CRLDistributionPoints selfSigned))
                (set_CRLDistributionPoints template2
                   (ss_CRLDistributionPoints selfSigned))
                publickey privatekey rnd2) as [[certPem2 crt2] e2] eqn:Hsig2.
    injection Hsame as <- <-.
    rewrite (SignPath_sound _ _ _ _ _
               (path_issued _ _ _ rnd2 _ _ _ _ _ _ _
                  (conj Hr (conj Hg2 Hcfg)) Hpub Heq Hsig2)).
    unfold effects_before_derivation. rewrite Hsubject. by open_trace.
Qed.

(** ** Messages *)

(** C10. A failure reported with reason [ErrorKeyMatch] carries the message
    [Error generating certificate template], which is also the message of
    a failure reported with reason [ErrorGenerating]. *)
Theorem Sign_key_match_message (s : SelfSigned) (cr : CertificateRequest)
    (issuerObj : GenericIssuer) (rnd : Entropy) (reason message : string)
    (err : option error) :
  FailedTerminal reason message err ∈ outcomes (effects (Sign s cr issuerObj rnd)) ->
  reason = "ErrorKeyMatch" \/ reason = "ErrorGenerating" ->
  message = "Error generating certificate template".
Proof.
  sign_cases s cr issuerObj rnd.
  all: intros Hin Hreason; invert_mem Hin; simplify_eq; try done.
  all: destruct Hreason; discriminate.
Qed.
(** ** Further properties of [Sign] *)

(** X1. The signing strategy is called only on a verified key binding: a
    call in the trace has the private key that the lister resolved for the
    secret named by the annotation, the public key derived from it, and a
    template whose public key compared equal to it without error. *)
Theorem Sign_signs_only_bound_key (s : SelfSigned) (cr : CertificateRequest)
    (issuerObj : GenericIssuer) (rnd : Entropy)
    (issuerCert subjectCert : x509_Certificate)
    (publickey : crypto_PublicKey) (privatekey : crypto_Signer) :
  call_signingFn issuerCert subjectCert publickey privatekey
    ∈ effects (Sign s cr issuerObj rnd) ->
  exists secretName template selfSigned,
    template_built s cr issuerObj rnd secretName privatekey template selfSigned
    /\ pki_PublicKeyForPrivateKey privatekey = (publickey, None)
    /\ pki_PublicKeysEqual publickey (PublicKey template) = (true, None)
    /\ issuerCert
       = set_CRLDistributionPoints template (ss_CRLDistributionPoints selfSigned)
    /\ subjectCert = issuerCert.
Proof.
  destruct (Sign_path s cr issuerObj rnd); open_trace.
  all: intros Hin; invert_mem Hin; simplify_eq.
  all: eexists _, _, _; split; [eassumption|]; by repeat split.
Qed.

(** X2. [Sign] returns a response exactly when every step succeeds: the
    key resolves, the template is generated for a self-signed issuer, the
    public key is derived and matches the template's, and the strategy
    signs; the response then holds the strategy's bytes twice and the
    error is nil. *)
Theorem Sign_issues_iff (s : SelfSigned) (cr : CertificateRequest)
    (issuerObj : GenericIssuer) (rnd : Entropy) (resp : IssueResponse)
    (err : option error) :
  result (Sign s cr issuerObj rnd) = Returns (Some resp, err) <->
  err = None
  /\ CA resp = Certificate resp
  /\ exists secretName privatekey template selfSigned publickey crt,
       template_built s cr issuerObj rnd secretName privatekey template selfSigned
       /\ pki_PublicKeyForPrivateKey privatekey = (publickey, None)
       /\ pki_PublicKeysEqual publickey (PublicKey template) = (true, None)
       /\ s_signingFn s
            (set_CRLDistributionPoints template
               (ss_CRLDistributionPoints selfSigned))
            (set_CRLDistributionPoints template
               (ss_CRLDistributionPoints selfSigned))
            publickey privatekey rnd = (Certificate resp, crt, None).
Proof.
  split.
  - destruct (Sign_path s cr issuerObj rnd); cbn; try discriminate.
    intros [= <- <-]. split; [done|]. split; [done|].
    eexists _, _, _, _, _, _. split; [eassumption|]. by repeat split.
  - intros (-> & Hca & secretName & privatekey & template & selfSigned
            & publickey & crt & Hb & Hpub & Heq & Hsig).
    rewrite (SignPath_sound _ _ _ _ _
               (path_issued _ _ _ _ _ _ _ _ _ _ _ Hb Hpub Heq Hsig)).
    destruct resp as [cert ca]. cbn in *. by subst.
Qed.

(** X3. The lister is asked once, for the secret that the annotation names
    in the namespace of the request, when the annotation is present and not
    empty, and is not asked otherwise; the signing strategy is called at
    most once. *)
Theorem Sign_collaborator_calls (s : SelfSigned) (cr : CertificateRequest)
    (issuerObj : GenericIssuer) (rnd : Entropy) :
  let run := Sign s cr issuerObj rnd in
  List.filter is_lister_call (effects run)
  = match Annotations (cr_ObjectMeta cr)
            !! CertificateRequestPrivateKeyAnnotationKey with
    | Some secretName =>
        if String.eqb secretName "" then []
        else [lister_SecretTLSKey (Namespace (cr_ObjectMeta cr)) secretName]
    | None => []
    end
  /\ length (List.filter is_signing_call (effects run)) <= 1.
Proof.
  intros run. subst run.
  destruct (Sign_path s cr issuerObj rnd) as [[Hm|Hm]| | | | | | | | |];
    unpack_path; string_facts;
    repeat match goal with
      | H : ?l = _ |- context [?l] => rewrite H
      end;
    cbn; open_trace; split; try reflexivity; try lia; discriminate.
Qed.

(** X4. The reason fixes the kind of the outcome, and no outcome is
    reported with a nil error: a request is left pending only for the
    reasons [MissingSecret], [ErrorParsingKey] and [ErrorGettingSecret],
    and is failed only for the reasons [MissingAnnotation],
    [ErrorGenerating], [ErrorPublicKey], [ErrorKeyMatch] and
    [ErrorSigning]. *)
Theorem Sign_outcome_kinds (s : SelfSigned) (cr : CertificateRequest)
    (issuerObj : GenericIssuer) (rnd : Entropy) (o : Outcome) :
  o ∈ outcomes (effects (Sign s cr issuerObj rnd)) ->
  exists reason message e,
    (o = PendingRetryable reason message (Some e)
     /\ reason ∈ ["MissingSecret"; "ErrorParsingKey"; "ErrorGettingSecret"])
    \/ (o = FailedTerminal reason message (Some e)
        /\ reason ∈ ["MissingAnnotation"; "ErrorGenerating"; "ErrorPublicKey";
                     "ErrorKeyMatch"; "ErrorSigning"]).
Proof.
  destruct (Sign_path s cr issuerObj rnd); open_trace.
  all: intros Hin; invert_mem Hin; subst o.
  all: repeat match goal with
         | Hnf : k8sErrors.IsNotFound ?err = true |- _ =>
             destruct err; [clear Hnf | discriminate Hnf]
         | Hinv : cmerrors.IsInvalidData ?err = true |- _ =>
             destruct err; [clear Hinv | discriminate Hinv]
         | |- context [match ?e with Some _ => _ | None => _ end] => destruct e
         end.
  all: eexists _, _, _;
    first [left; split; [reflexivity|] | right; split; [reflexivity|]].
  all: repeat (apply elem_of_cons; first [left; reflexivity | right]).
Qed.

(** X5. [Sign] stops at the first failure: a report to the condition sink
    is about the request being signed, is followed by its log line with
    the same error and message, and by nothing else; the invocation then
    returns without a response. *)
Theorem Sign_stops_after_report (s : SelfSigned) (cr : CertificateRequest)
    (issuerObj : GenericIssuer) (rnd : Entropy) (o : Outcome) :
  o ∈ outcomes (effects (Sign s cr issuerObj rnd)) ->
  exists before report reason message err returned,
    effects (Sign s cr issuerObj rnd)
    = (before ++ [report; log_Error err message])%list
    /\ (report = reporter_Failed cr err reason message
        \/ report = reporter_Pending cr err reason message)
    /\ reported report = Some o
    /\ outcomes before = []
    /\ result (Sign s cr issuerObj rnd) = Returns (None, returned).
Proof.
  destruct (Sign_path s cr issuerObj rnd); open_trace.
  all: intros Hin; invert_mem Hin; subst o.
  all: first
         [ eexists [], _, _, _, _, _; split; [reflexivity|]
         | eexists [_], _, _, _, _, _; split; [reflexivity|]
         | eexists [_; _], _, _, _, _, _; split; [reflexivity|]
         | eexists [_; _; _], _, _, _, _, _; split; [reflexivity|]
         | eexists [_; _; _; _], _, _, _, _, _; split; [reflexivity|] ].
  all: split; [first [left; reflexivity | right; reflexivity]|]; by repeat split.
Qed.

(** X6. The signing strategy matters to the signing call alone: two
    issuers with the same options and lister, given the same draws from
    outside, call their strategies on the same arguments or not at all,
    and a run in which the strategy is not called is the same run for
    both. *)
Theorem Sign_strategy_only_in_signing (s1 s2 : SelfSigned)
    (cr : CertificateRequest) (issuerObj : GenericIssuer) (rnd : Entropy) :
  issuerOptions s1 = issuerOptions s2 ->
  secretsLister s1 = secretsLister s2 ->
  List.filter is_signing_call (effects (Sign s1 cr issuerObj rnd))
  = List.filter is_signing_call (effects (Sign s2 cr issuerObj rnd))
  /\ (List.filter is_signing_call (effects (Sign s1 cr issuerObj rnd)) = [] ->
      Sign s1 cr issuerObj rnd = Sign s2 cr issuerObj rnd).
Proof.
  intros Ho Hl.
  assert (Hr : forall secretName privatekey err,
            key_resolved s1 cr secretName privatekey err ->
            key_resolved s2 cr secretName privatekey err).
  { unfold key_resolved. by rewrite Hl. }
  assert (Hb : forall secretName privatekey template selfSigned,
            template_built s1 cr issuerObj rnd secretName privatekey template
              selfSigned ->
            template_built s2 cr issuerObj rnd secretName privatekey template
              selfSigned).
  { intros ? ? ? ? (? & ? & ?). split; [by apply Hr | done]. }
  assert (Hcalled : forall s secretName privatekey template selfSigned publickey,
            template_built s cr issuerObj rnd secretName privatekey template
              selfSigned ->
            pki_PublicKeyForPrivateKey privatekey = (publickey, None) ->
            pki_PublicKeysEqual publickey (PublicKey template) = (true, None) ->
            List.filter is_signing_call (effects (Sign s cr issuerObj rnd))
            = [call_signingFn
                 (set_CRLDistributionPoints template
                    (ss_CRLDistributionPoints selfSigned))
                 (set_CRLDistributionPoints template
                    (ss_CRLDistributionPoints selfSigned))
                 publickey privatekey]).
  { intros s secretName privatekey template selfSigned publickey Hbs Hpub Heq.
    destruct (s_signingFn s
                (set_CRLDistributionPoints template
                   (ss_CRLDistributionPoints selfSigned))
                (set_CRLDistributionPoints template
                   (ss_CRLDistributionPoints selfSigned))
                publickey privatekey rnd) as [[certPem crt] [e|]] eqn:Hsig.
    - rewrite (SignPath_sound _ _ _ _ _
                 (path_ErrorSigning _ _ _ _ _ _ _ _ _ _ _ _ Hbs Hpub Heq Hsig)).
      by open_trace.
    - rewrite (SignPath_sound _ _ _ _ _
                 (path_issued _ _ _ _ _ _ _ _ _ _ _ Hbs Hpub Heq Hsig)).
      by open_trace. }
  assert (Hsame : forall run,
            SignPath s1 cr issuerObj rnd run ->
            List.filter is_signing_call (effects run) = [] ->
            SignPath s2 cr issuerObj rnd run).
  { destruct 1; intros Hnone; rewrite ?Ho.
    - by apply path_MissingAnnotation.
    - eapply path_MissingSecret; eauto.
    - eapply path_ErrorParsingKey; eauto.
    - eapply path_ErrorGettingSecret; eauto.
    - eapply path_ErrorGenerating; eauto.
    - eapply path_nil_dereference; eauto.
    - eapply path_ErrorPublicKey; eauto.
    - eapply path_ErrorKeyMatch; eauto.
    - revert Hnone. by open_trace.
    - revert Hnone. by open_trace. }
  split.
  - destruct (Sign_path s1 cr issuerObj rnd)
      as [| | | | | | |
          |? ? ? ? ? ? ? ? Hb1 Hpub Heq Hsig|? ? ? ? ? ? ? Hb1 Hpub Heq Hsig].
    1-8: symmetry;
      erewrite (SignPath_sound s2 _ _ rnd)
        by (apply Hsame; [econstructor; eassumption | by open_trace]);
      reflexivity.
    + rewrite (Hcalled s2 _ _ _ _ _ (Hb _ _ _ _ Hb1) Hpub Heq). by open_trace.
    + rewrite (Hcalled s2 _ _ _ _ _ (Hb _ _ _ _ Hb1) Hpub Heq). by open_trace.
  - intros Hnone. symmetry. apply SignPath_sound.
    apply Hsame; [apply Sign_path | exact Hnone].
Qed.

(** X7. [Sign] panics exactly when the key resolves and the template is
    generated without error but there is no template or the issuer is not
    a self-signed one; it has then reported no outcome and sent no
    event. *)
Theorem Sign_panics_iff (s : SelfSigned) (cr : CertificateRequest)
    (issuerObj : GenericIssuer) (rnd : Entropy) :
  let run := Sign s cr issuerObj rnd in
  (forall reason,
     result run = Panics reason <->
     reason = nil_dereference
     /\ exists secretName privatekey template,
          key_resolved s cr secretName privatekey None
          /\ pki_GenerateTemplateFromCertificateRequest cr rnd = (template, None)
          /\ (template = None \/ SelfSigned_cfg (GetSpec issuerObj) = None))
  /\ (forall reason,
        result run = Panics reason ->
        outcomes (effects run) = [] /\ warning_events (effects run) = []).
Proof.
  intros run. subst run. split; intros reason; [split|].
  - destruct (Sign_path s cr issuerObj rnd); cbn; try discriminate.
    intros [= <-]. split; [done|].
    eexists _, _, _. split; [eassumption|]. split; eassumption.
  - intros (-> & secretName & privatekey & template & Hr & Hg & Hnil).
    by rewrite (SignPath_sound _ _ _ _ _
                  (path_nil_dereference _ _ _ rnd _ _ _ Hr Hg Hnil)).
  - destruct (Sign_path s cr issuerObj rnd); cbn; try discriminate. done.
Qed.

(** X8. The issuer options serve the text of the [ErrorGettingSecret]
    message and nothing else: two issuers with the same lister and signing
    strategy return the same values, and their runs are the same unless
    the lister fails with an error that is returned. *)
Theorem Sign_issuer_options (s1 s2 : SelfSigned) (cr : CertificateRequest)
    (issuerObj : GenericIssuer) (rnd : Entropy) :
  secretsLister s1 = secretsLister s2 ->
  s_signingFn s1 = s_signingFn s2 ->
  result (Sign s1 cr issuerObj rnd) = result (Sign s2 cr issuerObj rnd)
  /\ ((forall e, result (Sign s1 cr issuerObj rnd) <> Returns (None, Some e)) ->
      Sign s1 cr issuerObj rnd = Sign s2 cr issuerObj rnd).
Proof.
  intros Hl Hf.
  assert (Hr : forall secretName privatekey err,
            key_resolved s1 cr secretName privatekey err ->
            key_resolved s2 cr secretName privatekey err).
  { unfold key_resolved. by rewrite Hl. }
  assert (Hb : forall secretName privatekey template selfSigned,
            template_built s1 cr issuerObj rnd secretName privatekey template
              selfSigned ->
            template_built s2 cr issuerObj rnd secretName privatekey template
              selfSigned).
  { intros ? ? ? ? (? & ? & ?). split; [by apply Hr | done]. }
  assert (Hsame : forall run,
            SignPath s1 cr issuerObj rnd run ->
            (forall e, result run <> Returns (None, Some e)) ->
            SignPath s2 cr issuerObj rnd run).
  { destruct 1; intros Hno.
    - by apply path_MissingAnnotation.
    - eapply path_MissingSecret; eauto.
    - eapply path_ErrorParsingKey; eauto.
    - by destruct (Hno e).
    - eapply path_ErrorGenerating; eauto.
    - eapply path_nil_dereference; eauto.
    - eapply path_ErrorPublicKey; eauto.
    - eapply path_ErrorKeyMatch; eauto.
    - eapply path_ErrorSigning; eauto. by rewrite <- Hf.
    - eapply path_issued; eauto. by rewrite <- Hf. }
  assert (Hrun : (forall e, result (Sign s1 cr issuerObj rnd) <> Returns (None, Some e)) ->
                 Sign s1 cr issuerObj rnd = Sign s2 cr issuerObj rnd).
  { intros Hno. symmetry. apply SignPath_sound, Hsame; [apply Sign_path | exact Hno]. }
  split; [|exact Hrun].
  destruct (Sign_path s1 cr issuerObj rnd)
    as [| | |secretName privatekey e Hres Hnf Hinv| | | | | |].
  4: { by rewrite (SignPath_sound _ _ _ _ _
                     (path_ErrorGettingSecret _ _ _ rnd _ _ _ (Hr _ _ _ Hres)
                        Hnf Hinv)). }
  all: symmetry; apply (f_equal result), SignPath_sound, Hsame;
    [econstructor; eassumption | cbn; intros; discriminate].
Qed.
End Properties.

(** * [Sign] on the test doubles *)

Section Examples.
#[local] Existing Instance test_types.
#[local] Existing Instance test_packages.

Ltac evaluate := vm_compute; first [reflexivity | discriminate | done].

(** The requests reach line 135. *)
Lemma named_request_built :
  template_built (test_s fixed_signingFn) named_request
    (test_issuer test_selfsigned) 0%Z "good-key" 7%Z
    (test_template "CN=example" 7) issuer_crl.
Proof. repeat split; evaluate. Qed.

Lemma unnamed_request_built :
  template_built (test_s fixed_signingFn) unnamed_request
    (test_issuer test_selfsigned) 0%Z "good-key" 7%Z
    (test_template "" 7) issuer_crl.
Proof. repeat split; evaluate. Qed.

Lemma mismatched_request_built :
  template_built (test_s fixed_signingFn) mismatched_request
    (test_issuer test_selfsigned) 0%Z "other-key" 8%Z
    (test_template "CN=example" 7) issuer_crl.
Proof. repeat split; evaluate. Qed.

Lemma unnamed_mismatched_request_built :
  template_built (test_s fixed_signingFn) unnamed_mismatched_request
    (test_issuer test_selfsigned) 0%Z "other-key" 8%Z
    (test_template "" 7) issuer_crl.
Proof. repeat split; evaluate. Qed.

Lemma unnamed_underivable_request_built :
  template_built (test_s fixed_signingFn) unnamed_underivable_request
    (test_issuer test_selfsigned) 0%Z "odd-key" (-1)%Z
    (test_template "" 7) issuer_crl.
Proof. repeat split; evaluate. Qed.

Lemma unnamed_refused_request_built :
  template_built (test_s fixed_signingFn) unnamed_refused_request
    (test_issuer test_selfsigned) 0%Z "refused-key" 13%Z
    (test_template "" 13) issuer_crl.
Proof. repeat split; evaluate. Qed.

(** The runs, evaluated. *)
Lemma issued_run_result : result issued_run = Returns (Some issued_response, None).
Proof. evaluate. Qed.

Lemma issued_run_outcomes : outcomes (effects issued_run) = [].
Proof. evaluate. Qed.

Lemma mismatch_run_outcomes :
  outcomes (effects mismatch_run)
  = [FailedTerminal "ErrorKeyMatch" "Error generating certificate template"
       (Some (errors.New "CSR not signed by referenced private key"))].
Proof. evaluate. Qed.

Lemma mismatch_emptyDN_run_result :
  result mismatch_emptyDN_run = Returns (None, None).
Proof. evaluate. Qed.

(** Line 133 on an issuer that is not a self-signed one. *)
Lemma other_issuer_panics :
  test_Sign fixed_signingFn named_request (test_issuer None) 0
  = MkGo [lister_SecretTLSKey "default" "good-key"] (Panics nil_dereference).
Proof. evaluate. Qed.

(** C1, on the issued request. *)
Lemma Sign_self_signed_witness :
  result issued_run = Returns (Some issued_response, None)
  /\ Certificate issued_response = CA issued_response.
Proof.
  split; [evaluate|].
  apply (Sign_self_signed (test_s fixed_signingFn) named_request
           (test_issuer test_selfsigned) 0%Z issued_response None).
  evaluate.
Defined.

(** C2, on the request whose secret cannot be fetched, where the error of
    the lister is returned, and on the requests whose secret does not exist
    or holds no usable key, where it is not. *)
Lemma Sign_error_propagation_witness :
  (result unreachable_run = Returns (None, Some (errors.New "connection refused"))
   /\ exists message,
        outcomes (effects unreachable_run)
        = [PendingRetryable "ErrorGettingSecret" message
             (Some (errors.New "connection refused"))])
  /\ (exists message,
        outcomes (effects absent_run)
        = [PendingRetryable "MissingSecret" message
             (Some (StatusError "NotFound" "secret not found"))]
        /\ result absent_run = Returns (None, None))
  /\ (exists message,
        outcomes (effects garbled_run)
        = [PendingRetryable "ErrorParsingKey" message
             (Some (invalidData "error decoding private key PEM block"))]
        /\ result garbled_run = Returns (None, None)).
Proof.
  split; [split; [evaluate|] | split].
  - apply (proj1 (proj2 (Sign_error_propagation (test_s fixed_signingFn)
                           unreachable_request (test_issuer test_selfsigned) 0%Z))
             None).
    evaluate.
  - assert (Hr : key_resolved (test_s fixed_signingFn) absent_request "absent" 0%Z
                   (Some (StatusError "NotFound" "secret not found")))
      by (repeat split; evaluate).
    exact (proj1 (proj2 (proj2 (proj2 (Sign_error_propagation
                                         (test_s fixed_signingFn) absent_request
                                         (test_issuer test_selfsigned) 0%Z)))
                    _ _ _ Hr) eq_refl).
  - assert (Hr : key_resolved (test_s fixed_signingFn) garbled_request "garbled" 0%Z
                   (Some (invalidData "error decoding private key PEM block")))
      by (repeat split; evaluate).
    exact (proj2 (proj2 (proj2 (proj2 (Sign_error_propagation
                                         (test_s fixed_signingFn) garbled_request
                                         (test_issuer test_selfsigned) 0%Z)))
                    _ _ _ Hr) eq_refl).
Defined.

(** C3 fails as stated: the issued request reports no outcome at all, and
    no [Ready]. *)
Lemma Sign_success_reports_nothing :
  result issued_run = Returns (Some issued_response, None)
  /\ length (outcomes (effects issued_run)) <> 1
  /\ Ready ∉ outcomes (effects issued_run).
Proof.
  split; [exact issued_run_result|]. rewrite issued_run_outcomes.
  split; [discriminate | apply not_elem_of_nil].
Qed.

(** C3 as the code has it, on the request that refers to the wrong key:
    one outcome. *)
Lemma Sign_reports_failures_once_witness :
  result mismatch_run = Returns (None, None)
  /\ exists o, outcomes (effects mismatch_run) = [o].
Proof.
  split; [evaluate|].
  apply (proj1 (proj2 (proj2 (Sign_reports_failures_once
                                (test_s fixed_signingFn) mismatched_request
                                (test_issuer test_selfsigned) 0%Z)))
           None).
  evaluate.
Defined.

(** C4, on the request without annotation. *)
Lemma Sign_missing_annotation_fails_witness :
  Annotations (cr_ObjectMeta unannotated_request)
    !! CertificateRequestPrivateKeyAnnotationKey = None
  /\ result unannotated_run = Returns (None, None)
  /\ List.filter is_lister_call (effects unannotated_run) = [].
Proof.
  split; [evaluate|].
  pose proof (Sign_missing_annotation_fails (test_s fixed_signingFn)
                unannotated_request (test_issuer test_selfsigned) 0%Z
                (or_introl eq_refl)) as (_ & Hres & _ & Hlister & _).
  exact (conj Hres Hlister).
Defined.

(** C5 fails as stated: the unnamed request that refers to the wrong key
    has an empty subject and sends the warning for it, and is not issued;
    with the failure report there are two warning-severity events. *)
Lemma Sign_emptyDN_not_issued :
  pki_GenerateTemplateFromCertificateRequest unnamed_mismatched_request 0%Z
    = (Some (test_template "" 7), None)
  /\ Name_String (Subject (test_template "" 7)) = ""
  /\ emptyDN_events (effects mismatch_emptyDN_run)
     = [emptyDN_event unnamed_mismatched_request]
  /\ length (warnings_recorded (effects mismatch_emptyDN_run)) = 2
  /\ ~ (exists resp err, result mismatch_emptyDN_run = Returns (Some resp, err)).
Proof.
  repeat split; try evaluate.
  rewrite mismatch_emptyDN_run_result. intros (resp & err & [=]).
Qed.

(** C5 as the code has it: the unnamed request that refers to the wrong
    key sends the warning once and its failure report leaves one more;
    the unnamed request that refers to the right key sends the warning
    once, no other, and is issued. *)
Lemma Sign_emptyDN_warning_witness :
  emptyDN_events (effects mismatch_emptyDN_run)
    = [emptyDN_event unnamed_mismatched_request]
  /\ (exists e reason message,
        warnings_recorded (effects mismatch_emptyDN_run)
        = (emptyDN_events (effects mismatch_emptyDN_run)
             ++ [reporter_Failed unnamed_mismatched_request e reason message])%list)
  /\ emptyDN_events (effects issued_emptyDN_run) = [emptyDN_event unnamed_request]
  /\ warnings_recorded (effects issued_emptyDN_run)
     = emptyDN_events (effects issued_emptyDN_run)
  /\ result issued_emptyDN_run = Returns (Some issued_response, None).
Proof.
  pose proof (Sign_emptyDN_warning (test_s fixed_signingFn)
                unnamed_mismatched_request (test_issuer test_selfsigned) 0%Z)
    as Hfails.
  pose proof (Sign_emptyDN_warning (test_s fixed_signingFn)
                unnamed_request (test_issuer test_selfsigned) 0%Z)
    as Hissues.
  cbv zeta in Hfails, Hissues.
  destruct Hfails as (Hfails & _ & _), Hissues as (Hissues & _ & Hissued).
  destruct (Hfails _ _ _ _ unnamed_mismatched_request_built)
    as (Hsent1 & _ & Hmore).
  destruct (Hissues _ _ _ _ unnamed_request_built) as (Hsent2 & Honly & _).
  assert (Hpub : pki_PublicKeyForPrivateKey 7%Z = (7%Z, None)) by evaluate.
  assert (Heq : pki_PublicKeysEqual 7%Z (PublicKey (test_template "" 7))
                = (true, None)) by evaluate.
  assert (Hsig : s_signingFn (test_s fixed_signingFn)
                   (set_CRLDistributionPoints (test_template "" 7)
                      (ss_CRLDistributionPoints issuer_crl))
                   (set_CRLDistributionPoints (test_template "" 7)
                      (ss_CRLDistributionPoints issuer_crl)) 7%Z 7%Z 0%Z
                 = ([Byte.x30; Byte.x82],
                    Some (set_CRLDistributionPoints (test_template "" 7)
                            (ss_CRLDistributionPoints issuer_crl)), None))
    by evaluate.
  pose proof (Hissued _ _ _ _ _ _ _ unnamed_request_built Hpub Heq Hsig) as Hres.
  split; [exact Hsent1|].
  split; [exact (Hmore None mismatch_emptyDN_run_result)|].
  split; [exact Hsent2|].
  split; [exact (Honly _ _ Hres) | exact Hres].
Defined.

(** C6 fails as stated: on a mismatch without error, the text of the
    reported error is not [request not signed by referenced private key]. *)
Lemma Sign_key_mismatch_text :
  pki_PublicKeysEqual 8%Z (PublicKey (test_template "CN=example" 7))
    = (false, None)
  /\ ~ (exists message e,
         FailedTerminal "ErrorKeyMatch" message (Some e)
           ∈ outcomes (effects mismatch_run)
         /\ Error e = "request not signed by referenced private key").
Proof.
  split; [evaluate|]. rewrite mismatch_run_outcomes.
  intros (message & e & Hin & Htext).
  apply list_elem_of_singleton in Hin. injection Hin as _ ->. discriminate Htext.
Qed.

(** C6 as the code has it, on the same request. *)
Lemma Sign_key_match_failure_witness :
  exists e : error,
    outcomes (effects mismatch_run)
    = [FailedTerminal "ErrorKeyMatch" "Error generating certificate template" (Some e)]
    /\ result mismatch_run = Returns (None, None)
    /\ Error e = "CSR not signed by referenced private key".
Proof.
  destruct (Sign_key_match_failure (test_s fixed_signingFn) mismatched_request
              (test_issuer test_selfsigned) 0%Z "other-key" 8%Z
              (test_template "CN=example" 7) issuer_crl 8%Z false None
              mismatched_request_built eq_refl eq_refl (or_introl eq_refl))
    as (e & Hout & Hres & Htext & _).
  exists e. exact (conj Hout (conj Hres (Htext eq_refl))).
Defined.

(** C9, on the three unnamed requests that fail after the warning. *)
Lemma Sign_warning_then_failure_witness :
  (exists before after message e,
     effects underivable_emptyDN_run
     = (before ++ emptyDN_event unnamed_underivable_request :: after)%list
     /\ outcomes after = [FailedTerminal "ErrorPublicKey" message (Some e)]
     /\ result underivable_emptyDN_run = Returns (None, None))
  /\ (exists before after message e,
        effects mismatch_emptyDN_run
        = (before ++ emptyDN_event unnamed_mismatched_request :: after)%list
        /\ outcomes after = [FailedTerminal "ErrorKeyMatch" message (Some e)]
        /\ result mismatch_emptyDN_run = Returns (None, None))
  /\ (exists before after message e,
        effects refused_emptyDN_run
        = (before ++ emptyDN_event unnamed_refused_request :: after)%list
        /\ outcomes after = [FailedTerminal "ErrorSigning" message (Some e)]
        /\ result refused_emptyDN_run = Returns (None, None)).
Proof.
  split; [|split].
  - assert (Hpub : pki_PublicKeyForPrivateKey (-1)%Z
                   = (0%Z, Some (errors.New "unknown private key type")))
      by evaluate.
    assert (Heq : pki_PublicKeysEqual 0%Z (PublicKey (test_template "" 7))
                  = (false, None)) by evaluate.
    assert (Hsig : s_signingFn (test_s fixed_signingFn)
                     (set_CRLDistributionPoints (test_template "" 7)
                        (ss_CRLDistributionPoints issuer_crl))
                     (set_CRLDistributionPoints (test_template "" 7)
                        (ss_CRLDistributionPoints issuer_crl)) 0%Z (-1)%Z 0%Z
                   = ([Byte.x30; Byte.x82],
                      Some (set_CRLDistributionPoints (test_template "" 7)
                              (ss_CRLDistributionPoints issuer_crl)), None))
      by evaluate.
    assert (Hbad : Some (errors.New "unknown private key type") <> None
                   \/ @None error <> None \/ false = false \/ @None error <> None)
      by (left; discriminate).
    pose proof (Sign_warning_then_failure _ _ _ 0%Z _ _ _ _
                  unnamed_underivable_request_built eq_refl) as Hw.
    cbv zeta in Hw.
    destruct (Hw _ _ _ _ _ _ _ Hpub Heq Hsig Hbad)
      as (before & after & reason & message & e & Heff & _ & _ & Hout & Hwhy & Hres).
    exists before, after, message, e.
    destruct Hwhy as [[-> _]|[(_ & Hnil & _)|(_ & Hnil & _)]];
      [exact (conj Heff (conj Hout Hres)) | discriminate Hnil | discriminate Hnil].
  - assert (Hpub : pki_PublicKeyForPrivateKey 8%Z = (8%Z, None)) by evaluate.
    assert (Heq : pki_PublicKeysEqual 8%Z (PublicKey (test_template "" 7))
                  = (false, None)) by evaluate.
    assert (Hsig : s_signingFn (test_s fixed_signingFn)
                     (set_CRLDistributionPoints (test_template "" 7)
                        (ss_CRLDistributionPoints issuer_crl))
                     (set_CRLDistributionPoints (test_template "" 7)
                        (ss_CRLDistributionPoints issuer_crl)) 8%Z 8%Z 0%Z
                   = ([Byte.x30; Byte.x82],
                      Some (set_CRLDistributionPoints (test_template "" 7)
                              (ss_CRLDistributionPoints issuer_crl)), None))
      by evaluate.
    assert (Hbad : @None error <> None \/ @None error <> None \/ false = false
                   \/ @None error <> None)
      by (right; right; left; reflexivity).
    pose proof (Sign_warning_then_failure _ _ _ 0%Z _ _ _ _
                  unnamed_mismatched_request_built eq_refl) as Hw.
    cbv zeta in Hw.
    destruct (Hw _ _ _ _ _ _ _ Hpub Heq Hsig Hbad)
      as (before & after & reason & message & e & Heff & _ & _ & Hout & Hwhy & Hres).
    exists before, after, message, e.
    destruct Hwhy as [[_ Hnil]|[(-> & _)|(_ & _ & _ & Hok & _)]];
      [discriminate Hnil | exact (conj Heff (conj Hout Hres)) | discriminate Hok].
  - assert (Hpub : pki_PublicKeyForPrivateKey 13%Z = (13%Z, None)) by evaluate.
    assert (Heq : pki_PublicKeysEqual 13%Z (PublicKey (test_template "" 13))
                  = (true, None)) by evaluate.
    assert (Hsig : s_signingFn (test_s fixed_signingFn)
                     (set_CRLDistributionPoints (test_template "" 13)
                        (ss_CRLDistributionPoints issuer_crl))
                     (set_CRLDistributionPoints (test_template "" 13)
                        (ss_CRLDistributionPoints issuer_crl)) 13%Z 13%Z 0%Z
                   = ([], None, Some (errors.New "signing refused")))
      by evaluate.
    assert (Hbad : @None error <> None \/ @None error <> None \/ true = false
                   \/ Some (errors.New "signing refused") <> None)
      by (right; right; right; discriminate).
    pose proof (Sign_warning_then_failure _ _ _ 0%Z _ _ _ _
                  unnamed_refused_request_built eq_refl) as Hw.
    cbv zeta in Hw.
    destruct (Hw _ _ _ _ _ _ _ Hpub Heq Hsig Hbad)
      as (before & after & reason & message & e & Heff & _ & _ & Hout & Hwhy & Hres).
    exists before, after, message, e.
    destruct Hwhy as [[_ Hnil]|[(_ & _ & [Hno|Hno])|(-> & _)]];
      [discriminate Hnil | destruct (Hno eq_refl) | discriminate Hno
      | exact (conj Heff (conj Hout Hres))].
Defined.

(** C7, on the issued request: the template arrives at the signing
    strategy with the distribution points of the issuer, not with those
    derived from the request. *)
Lemma Sign_crl_override_witness :
  CRLDistributionPoints (test_template "CN=example" 7)
    = ["http://request.example/crl"]
  /\ exists template,
       call_signingFn template template 7%Z 7%Z ∈ effects issued_run
       /\ CRLDistributionPoints template = ["http://issuer.example/crl"].
Proof.
  split; [reflexivity|].
  destruct (Sign_crl_override (test_s fixed_signingFn) named_request
              (test_issuer test_selfsigned) 0%Z "good-key" 7%Z
              (test_template "CN=example" 7) issuer_crl named_request_built)
    as (Hcrl & _ & Hcalled).
  eexists. split; [exact (Hcalled 7%Z eq_refl eq_refl) | exact Hcrl].
Defined.

Lemma fixed_signingFn_deterministic : deterministic fixed_signingFn.
Proof. intros issuerCert subjectCert publickey privatekey rnd1 rnd2. reflexivity. Qed.

(** C8 fails as stated: the strategy that encodes the serial number is a
    function of its arguments, and two invocations on the same request
    return different bytes. *)
Lemma Sign_pure_strategy_not_reproducible :
  deterministic serial_signingFn
  /\ result (test_Sign serial_signingFn named_request (test_issuer test_selfsigned) 0)
     <> result (test_Sign serial_signingFn named_request (test_issuer test_selfsigned) 1).
Proof.
  split.
  - intros issuerCert subjectCert publickey privatekey rnd1 rnd2. reflexivity.
  - vm_compute. discriminate.
Qed.

(** C8 as the code has it, on the issued request with the strategy that
    returns fixed bytes: the two templates differ in their serial number,
    the responses and outcomes do not. *)
Lemma Sign_deterministic_witness :
  pki_GenerateTemplateFromCertificateRequest named_request 0%Z
    <> pki_GenerateTemplateFromCertificateRequest named_request 1%Z
  /\ result (test_Sign fixed_signingFn named_request (test_issuer test_selfsigned) 0)
     = result (test_Sign fixed_signingFn named_request (test_issuer test_selfsigned) 1)
  /\ outcomes (effects (test_Sign fixed_signingFn named_request
                          (test_issuer test_selfsigned) 0))
     = outcomes (effects (test_Sign fixed_signingFn named_request
                            (test_issuer test_selfsigned) 1)).
Proof.
  split; [evaluate|].
  assert (Halike : builds_alike
                     (pki_GenerateTemplateFromCertificateRequest named_request 0%Z)
                     (pki_GenerateTemplateFromCertificateRequest named_request 1%Z))
    by evaluate.
  assert (Hsigned : forall (template1 template2 : x509_Certificate)
                      (selfSigned : SelfSignedIssuer) (publickey privatekey : Z),
            pki_GenerateTemplateFromCertificateRequest named_request 0%Z
              = (Some template1, None) ->
            pki_GenerateTemplateFromCertificateRequest named_request 1%Z
              = (Some template2, None) ->
            SelfSigned_cfg (GetSpec (test_issuer test_selfsigned)) = Some selfSigned ->
            signed (s_signingFn (test_s fixed_signingFn)
                      (set_CRLDistributionPoints template1
                         (ss_CRLDistributionPoints selfSigned))
                      (set_CRLDistributionPoints template1
                         (ss_CRLDistributionPoints selfSigned))
                      publickey privatekey 0%Z)
            = signed (s_signingFn (test_s fixed_signingFn)
                        (set_CRLDistributionPoints template2
                           (ss_CRLDistributionPoints selfSigned))
                        (set_CRLDistributionPoints template2
                           (ss_CRLDistributionPoints selfSigned))
                        publickey privatekey 1%Z)).
  { intros template1 template2 selfSigned publickey privatekey _ _ _.
    cbn. unfold fixed_signingFn. destruct (privatekey =? 13)%Z; reflexivity. }
  destruct (Sign_deterministic (test_s fixed_signingFn) named_request
              (test_issuer test_selfsigned) 0%Z 1%Z Halike Hsigned)
    as (Hres & Hout & _).
  exact (conj Hres Hout).
Defined.

(** A strategy that draws its serial number from outside returns
    different bytes from one invocation to the next. *)
Lemma random_signingFn_not_reproducible :
  result (test_Sign random_signingFn named_request (test_issuer test_selfsigned) 0)
  <> result (test_Sign random_signingFn named_request (test_issuer test_selfsigned) 1).
Proof. vm_compute. discriminate. Qed.

Lemma undecodable_run_outcomes :
  outcomes (effects undecodable_run)
  = [FailedTerminal "ErrorGenerating" "Error generating certificate template"
       (Some (errors.New "error decoding certificate request PEM block"))].
Proof. evaluate. Qed.

(** C10, on the request that refers to the wrong key and on the request
    that does not decode: two reasons, one message. *)
Lemma Sign_key_match_message_witness :
  exists message1 message2 err1 err2,
    FailedTerminal "ErrorKeyMatch" message1 err1 ∈ outcomes (effects mismatch_run)
    /\ FailedTerminal "ErrorGenerating" message2 err2
         ∈ outcomes (effects undecodable_run)
    /\ message1 = "Error generating certificate template"
    /\ message2 = message1.
Proof.
  assert (Hin1 : FailedTerminal "ErrorKeyMatch" "Error generating certificate template"
                   (Some (errors.New "CSR not signed by referenced private key"))
                 ∈ outcomes (effects mismatch_run)).
  { rewrite mismatch_run_outcomes. apply list_elem_of_singleton. reflexivity. }
  assert (Hin2 : FailedTerminal "ErrorGenerating" "Error generating certificate template"
                   (Some (errors.New "error decoding certificate request PEM block"))
                 ∈ outcomes (effects undecodable_run)).
  { rewrite undecodable_run_outcomes. apply list_elem_of_singleton. reflexivity. }
  eexists _, _, _, _. split; [exact Hin1|]. split; [exact Hin2|]. split.
  - exact (Sign_key_match_message (test_s fixed_signingFn) mismatched_request
             (test_issuer test_selfsigned) 0%Z _ _ _ Hin1 (or_introl eq_refl)).
  - exact (Sign_key_match_message (test_s fixed_signingFn) undecodable_request
             (test_issuer test_selfsigned) 0%Z _ _ _ Hin2 (or_intror eq_refl)).
Defined.

(** ** Further properties, on the doubles *)

Lemma issued_run_effects :
  effects issued_run
  = [lister_SecretTLSKey "default" "good-key";
     call_signingFn
       (set_CRLDistributionPoints (test_template "CN=example" 7)
          (ss_CRLDistributionPoints issuer_crl))
       (set_CRLDistributionPoints (test_template "CN=example" 7)
          (ss_CRLDistributionPoints issuer_crl)) 7%Z 7%Z;
     log_Info 4 "self signed certificate issued"].
Proof. evaluate. Qed.

Lemma mismatch_run_reported :
  FailedTerminal "ErrorKeyMatch" "Error generating certificate template"
    (Some (errors.New "CSR not signed by referenced private key"))
  ∈ outcomes (effects mismatch_run).
Proof. rewrite mismatch_run_outcomes. apply list_elem_of_singleton. reflexivity. Qed.

(** X1, on the issued request: the key handed to the strategy is bound to
    the template. *)
Lemma Sign_signs_only_bound_key_witness :
  exists secretName template selfSigned,
    template_built (test_s fixed_signingFn) named_request
      (test_issuer test_selfsigned) 0%Z secretName 7%Z template selfSigned
    /\ pki_PublicKeyForPrivateKey 7%Z = (7%Z, None)
    /\ pki_PublicKeysEqual 7%Z (PublicKey template) = (true, None).
Proof.
  assert (Hin : call_signingFn
                  (set_CRLDistributionPoints (test_template "CN=example" 7)
                     (ss_CRLDistributionPoints issuer_crl))
                  (set_CRLDistributionPoints (test_template "CN=example" 7)
                     (ss_CRLDistributionPoints issuer_crl)) 7%Z 7%Z
                ∈ effects issued_run).
  { rewrite issued_run_effects. apply elem_of_cons. right.
    apply elem_of_cons. left. reflexivity. }
  destruct (Sign_signs_only_bound_key (test_s fixed_signingFn) named_request
              (test_issuer test_selfsigned) 0%Z _ _ _ _ Hin)
    as (secretName & template & selfSigned & Hb & Hpub & Heq & _).
  exists secretName, template, selfSigned. exact (conj Hb (conj Hpub Heq)).
Defined.

(** X2, on the issued request. *)
Lemma Sign_issues_iff_witness :
  result issued_run = Returns (Some issued_response, None)
  /\ exists secretName privatekey template selfSigned publickey,
       template_built (test_s fixed_signingFn) named_request
         (test_issuer test_selfsigned) 0%Z secretName privatekey template selfSigned
       /\ pki_PublicKeysEqual publickey (PublicKey template) = (true, None).
Proof.
  split; [exact issued_run_result|].
  destruct (proj1 (Sign_issues_iff (test_s fixed_signingFn) named_request
                     (test_issuer test_selfsigned) 0%Z issued_response None)
              issued_run_result)
    as (_ & _ & secretName & privatekey & template & selfSigned & publickey
        & crt & Hb & _ & Heq & _).
  exists secretName, privatekey, template, selfSigned, publickey.
  exact (conj Hb Heq).
Defined.

(** X4, on the request that refers to the wrong key. *)
Lemma Sign_outcome_kinds_witness :
  exists reason message e,
    (FailedTerminal "ErrorKeyMatch" "Error generating certificate template"
       (Some (errors.New "CSR not signed by referenced private key"))
     = PendingRetryable reason message (Some e)
     /\ reason ∈ ["MissingSecret"; "ErrorParsingKey"; "ErrorGettingSecret"])
    \/ (FailedTerminal "ErrorKeyMatch" "Error generating certificate template"
          (Some (errors.New "CSR not signed by referenced private key"))
        = FailedTerminal reason message (Some e)
        /\ reason ∈ ["MissingAnnotation"; "ErrorGenerating"; "ErrorPublicKey";
                     "ErrorKeyMatch"; "ErrorSigning"]).
Proof.
  exact (Sign_outcome_kinds (test_s fixed_signingFn) mismatched_request
           (test_issuer test_selfsigned) 0%Z _ mismatch_run_reported).
Defined.

(** X5, on the same request. *)
Lemma Sign_stops_after_report_witness :
  exists before report reason message err returned,
    effects mismatch_run = (before ++ [report; log_Error err message])%list
    /\ (report = reporter_Failed mismatched_request err reason message
        \/ report = reporter_Pending mismatched_request err reason message)
    /\ reported report
       = Some (FailedTerminal "ErrorKeyMatch" "Error generating certificate template"
                 (Some (errors.New "CSR not signed by referenced private key")))
    /\ outcomes before = []
    /\ result mismatch_run = Returns (None, returned).
Proof.
  exact (Sign_stops_after_report (test_s fixed_signingFn) mismatched_request
           (test_issuer test_selfsigned) 0%Z _ mismatch_run_reported).
Defined.

(** X6, on the request that refers to the wrong key: it runs the same
    with the reproducible strategy and with the one that draws its serial
    number from outside. *)
Lemma Sign_strategy_only_in_signing_witness :
  test_Sign random_signingFn mismatched_request (test_issuer test_selfsigned) 0
  = test_Sign fixed_signingFn mismatched_request (test_issuer test_selfsigned) 0.
Proof.
  apply (proj2 (Sign_strategy_only_in_signing (test_s random_signingFn)
                  (test_s fixed_signingFn) mismatched_request
                  (test_issuer test_selfsigned) 0%Z eq_refl eq_refl)).
  evaluate.
Defined.

(** X7, on an issuer that is not a self-signed one. *)
Lemma Sign_panics_iff_witness :
  result (test_Sign fixed_signingFn named_request (test_issuer None) 0)
    = Panics nil_dereference
  /\ outcomes (effects (test_Sign fixed_signingFn named_request (test_issuer None) 0))
     = [].
Proof.
  assert (Hr : key_resolved (test_s fixed_signingFn) named_request "good-key" 7%Z None)
    by (repeat split; evaluate).
  assert (Hg : pki_GenerateTemplateFromCertificateRequest named_request 0%Z
               = (Some (test_template "CN=example" 7), None)) by evaluate.
  assert (Hnil : Some (test_template "CN=example" 7) = None
                 \/ SelfSigned_cfg (GetSpec (test_issuer None)) = None)
    by (right; reflexivity).
  pose proof (Sign_panics_iff (test_s fixed_signingFn) named_request
                (test_issuer None) 0%Z) as Hw.
  cbv zeta in Hw. destruct Hw as (Hiff & Hquiet).
  assert (Hpanics : result (Sign (test_s fixed_signingFn) named_request
                              (test_issuer None) 0%Z) = Panics nil_dereference).
  { apply Hiff. split; [reflexivity|]. exists "good-key", 7%Z, (Some (test_template "CN=example" 7)).
    exact (conj Hr (conj Hg Hnil)). }
  split; [exact Hpanics | exact (proj1 (Hquiet _ Hpanics))].
Defined.

(** X8, on two issuers that differ in their options. *)
Lemma Sign_issuer_options_witness :
  Sign (test_s fixed_signingFn) mismatched_request (test_issuer test_selfsigned) 0%Z
  = Sign other_options_s mismatched_request (test_issuer test_selfsigned) 0%Z.
Proof.
  apply (Sign_issuer_options (test_s fixed_signingFn) other_options_s
           mismatched_request (test_issuer test_selfsigned) 0%Z
           eq_refl eq_refl).
  intros e. evaluate.
Defined.

(** The message of [ErrorGettingSecret] does tell the two issuers apart. *)
Lemma issuer_options_in_message :
  outcomes (effects (Sign (test_s fixed_signingFn) unreachable_request
                       (test_issuer test_selfsigned) 0%Z))
  <> outcomes (effects (Sign other_options_s unreachable_request
                          (test_issuer test_selfsigned) 0%Z)).
Proof. evaluate. Qed.
End Examples.
